(** * Concerto command-line client: transport layer and response classifier

    Shallow embedding of

      - [utils.ScrapeErrorMessage] and [utils.CheckReturnCode]
        (src/utils/utils.go), and
      - [Webservice.Post], [Webservice.Get] and [Webservice.GetFile]
        (package webservice, src/unnamed/part_001),

    together with the parts of Go's [strings] and [regexp] packages these
    functions call.

    Go strings are byte sequences; they are modelled as [string], one
    [ascii] per byte.  The separators, markers and patterns of the program
    are all ASCII, and every byte of a multi-byte UTF-8 sequence is at
    least 128, so working byte by byte gives the same results as Go's
    rune-by-rune scanning (an invalid byte is a one-byte rune for Go and
    is copied unchanged into every substring). *)

From Stdlib Require Import ZArith Ascii String.
From stdpp Require Import gmap strings list.

(** ** Writing Go literals

    Several literals of the program contain a double quote.  They are
    written here with an apostrophe in its place and passed through [dq];
    no literal of the program contains an apostrophe. *)

Definition dquote : ascii := "034"%char.

Fixpoint dq (s : string) : string :=
  match s with
  | EmptyString => EmptyString
  | String c t => String (if Ascii.eqb c "'" then dquote else c) (dq t)
  end.

(** ** Package [strings] *)

Module strings.

(** [strings.HasPrefix(s, prefix)]. *)
Fixpoint HasPrefix (s prefix : string) : bool :=
  match prefix, s with
  | EmptyString, _ => true
  | String _ _, EmptyString => false
  | String p prefix', String c s' => Ascii.eqb c p && HasPrefix s' prefix'
  end.

(** [strings.Index(s, substr)]: the offset of the first occurrence of
    [substr] in [s], or -1. *)
Fixpoint Index (s substr : string) : Z :=
  if HasPrefix s substr then 0%Z
  else match s with
       | EmptyString => (-1)%Z
       | String _ s' =>
           let i := Index s' substr in
           if (i <? 0)%Z then (-1)%Z else (i + 1)%Z
       end.

(** [strings.Contains(s, substr)] is [Index(s, substr) >= 0]. *)
Definition Contains (s substr : string) : bool :=
  (0 <=? Index s substr)%Z.

(** [strings.Split(s, sep)] for a non-empty [sep]: the pieces of [s] between
    the non-overlapping occurrences of [sep], found from the left.  [skip]
    counts the bytes of an occurrence that remain to be stepped over and
    [cur] is the piece being read. *)
Fixpoint Split_go (sep : string) (skip : nat) (cur : string) (s : string)
  : list string :=
  match s with
  | EmptyString => [cur]
  | String c s' =>
      match skip with
      | S skip' => Split_go sep skip' cur s'
      | O =>
          if HasPrefix s sep
          then cur :: Split_go sep (String.length sep - 1) EmptyString s'
          else Split_go sep 0 (cur +:+ String c EmptyString) s'
      end
  end.

(** With an empty separator Go splits after each UTF-8 sequence; here that
    is one piece per byte, which agrees on ASCII text.  The program only
    splits on a comma. *)
Fixpoint explode (s : string) : list string :=
  match s with
  | EmptyString => []
  | String c s' => String c EmptyString :: explode s'
  end.

Definition Split (s sep : string) : list string :=
  match sep with
  | EmptyString => explode s
  | String _ _ => Split_go sep 0 EmptyString s
  end.

(** [strings.FieldsFunc(s, f)]: the maximal runs of bytes that do not
    satisfy [f]; [field] is the run being read (empty when none is). *)
Fixpoint FieldsFunc_go (f : ascii -> bool) (field : string) (s : string)
  : list string :=
  match s with
  | EmptyString =>
      match field with
      | EmptyString => []
      | String _ _ => [field]
      end
  | String c s' =>
      if f c
      then match field with
           | EmptyString => FieldsFunc_go f EmptyString s'
           | String _ _ => field :: FieldsFunc_go f EmptyString s'
           end
      else FieldsFunc_go f (field +:+ String c EmptyString) s'
  end.

Definition FieldsFunc (s : string) (f : ascii -> bool) : list string :=
  FieldsFunc_go f EmptyString s.

(** [strings.Join(elems, sep)]. *)
Fixpoint Join (elems : list string) (sep : string) : string :=
  match elems with
  | [] => EmptyString
  | [x] => x
  | x :: rest => x +:+ sep +:+ Join rest sep
  end.

End strings.

(** ** Package [regexp]

    The fragment of RE2 syntax that the patterns of the program use:
    literal bytes, [.], bracket classes of single bytes, capture groups, a
    star (greedy or lazy) on a one-byte matcher, the repetition [{1}] and
    backslash escapes of punctuation.

    A dot or a class consumes one byte here, where Go consumes one UTF-8
    character.  The two agree on ASCII text for every pattern of the
    fragment, and on any text for the four patterns of the program, whose
    runs of dots or class bytes stand between ASCII literals.  They differ
    for other patterns on text with multi-byte characters. *)

Module regexp.

Inductive CharMatcher :=
| Literal (c : ascii)
| AnyCharNotNL
| CharClass (negated : bool) (members : list ascii).

Inductive Regexp :=
| OpEmptyMatch
| OpChar (m : CharMatcher)
| OpStar (greedy : bool) (m : CharMatcher)
| OpCapture (cap : nat) (sub : Regexp)
| OpConcat (r1 r2 : Regexp).

Definition newline : ascii := "010"%char.

Definition mem (c : ascii) (l : list ascii) : bool :=
  existsb (Ascii.eqb c) l.

Definition accepts (m : CharMatcher) (c : ascii) : bool :=
  match m with
  | Literal x => Ascii.eqb c x
  | AnyCharNotNL => negb (Ascii.eqb c newline)
  | CharClass negated members => xorb negated (mem c members)
  end.

(** *** Parsing

    [Compiled]: the expression and its number of capture groups;
    [SyntaxError]: Go returns an error and a nil [*Regexp];
    [OutsideFragment]: the pattern uses syntax that is not modelled here,
    and nothing is said about what Go does with it.  The parser reads the
    pattern from the left with a stack, as Go's does. *)

Inductive CompileResult :=
| Compiled (re : Regexp) (numSubexp : nat)
| SyntaxError
| OutsideFragment.

Inductive Frame := FParen (cap : nat) | FNode (r : Regexp).

Inductive Mode := MTop | MClass (negated : bool) (acc : list ascii).

(** Concatenation of the nodes above the innermost open parenthesis; the
    stack has its top first. *)
Fixpoint collapse (stack : list Frame) (acc : option Regexp)
  : Regexp * list Frame :=
  match stack with
  | FNode r :: rest =>
      collapse rest (Some (match acc with
                           | None => r
                           | Some a => OpConcat r a
                           end))
  | _ => (default OpEmptyMatch acc, stack)
  end.

Definition isalnum (c : ascii) : bool :=
  let n := nat_of_ascii c in
  ((48 <=? n) && (n <=? 57)) || ((65 <=? n) && (n <=? 90))
  || ((97 <=? n) && (n <=? 122)).

(** A backslash makes an ASCII byte that is not a letter or digit stand
    for itself. *)
Definition escapable (c : ascii) : bool :=
  (nat_of_ascii c <? 128) && negb (isalnum c).

Definition isdigit (c : ascii) : bool :=
  let n := nat_of_ascii c in (48 <=? n) && (n <=? 57).

Definition byte_is (c : ascii) (x : ascii) : bool := Ascii.eqb c x.

Fixpoint parse (s : string) (mode : Mode) (stack : list Frame) (ncap : nat)
  : CompileResult :=
  match s with
  | EmptyString =>
      match mode with
      | MClass _ _ => SyntaxError (* missing closing ] *)
      | MTop =>
          match collapse stack None with
          | (body, []) => Compiled body ncap
          | _ => SyntaxError (* missing closing ) *)
          end
      end
  | String c t =>
      match mode with
      | MClass negated acc =>
          if byte_is c "]" then
            match acc with
            | [] => OutsideFragment
            | _ :: _ =>
                parse t MTop
                  (FNode (OpChar (CharClass negated (rev acc))) :: stack) ncap
            end
          else if byte_is c "\" then
            match t with
            | EmptyString => SyntaxError
            | String e t' =>
                if escapable e
                then parse t' (MClass negated (e :: acc)) stack ncap
                else OutsideFragment
            end
          else if byte_is c "-" || byte_is c "["
                  || negb (nat_of_ascii c <? 128)
          then OutsideFragment
          else parse t (MClass negated (c :: acc)) stack ncap
      | MTop =>
          if byte_is c "(" then
            match t with
            | String "?" _ => OutsideFragment
            | _ => parse t MTop (FParen (S ncap) :: stack) (S ncap)
            end
          else if byte_is c ")" then
            match collapse stack None with
            | (body, FParen i :: rest) =>
                parse t MTop (FNode (OpCapture i body) :: rest) ncap
            | _ => SyntaxError (* unexpected ) *)
            end
          else if byte_is c "*" then
            match stack with
            | FNode (OpChar m) :: rest =>
                match t with
                | String "?" t' =>
                    parse t' MTop (FNode (OpStar false m) :: rest) ncap
                | _ => parse t MTop (FNode (OpStar true m) :: rest) ncap
                end
            | FNode _ :: _ => OutsideFragment
            | _ => SyntaxError (* missing argument to repetition operator *)
            end
          else if byte_is c "{" then
            match t with
            | String d t' =>
                if isdigit d then
                  match d, t' with
                  | "1"%char, String "}" t'' =>
                      (* x{1} is x; no operator may repeat it again *)
                      match stack with
                      | FNode (OpStar _ _) :: _ => OutsideFragment
                      | FNode _ :: _ =>
                          match t'' with
                          | String n _ =>
                              if byte_is n "*" || byte_is n "+"
                                 || byte_is n "?" || byte_is n "{"
                              then OutsideFragment
                              else parse t'' MTop stack ncap
                          | EmptyString => parse t'' MTop stack ncap
                          end
                      | _ => SyntaxError (* missing argument *)
                      end
                  | _, _ => OutsideFragment
                  end
                else parse t MTop (FNode (OpChar (Literal c)) :: stack) ncap
            | EmptyString =>
                parse t MTop (FNode (OpChar (Literal c)) :: stack) ncap
            end
          else if byte_is c "." then
            parse t MTop (FNode (OpChar AnyCharNotNL) :: stack) ncap
          else if byte_is c "[" then
            match t with
            | String "^" t' => parse t' (MClass true []) stack ncap
            | _ => parse t (MClass false []) stack ncap
            end
          else if byte_is c "\" then
            match t with
            | EmptyString => SyntaxError (* trailing backslash *)
            | String e t' =>
                if escapable e
                then parse t' MTop (FNode (OpChar (Literal e)) :: stack) ncap
                else OutsideFragment
            end
          else if byte_is c "+" || byte_is c "?" || byte_is c "|"
                  || byte_is c "^" || byte_is c "$"
                  || negb (nat_of_ascii c <? 128)
          then OutsideFragment
          else parse t MTop (FNode (OpChar (Literal c)) :: stack) ncap
      end
  end.

(** [regexp.Compile(expr)]. *)
Definition Compile (expr : string) : CompileResult := parse expr MTop [] 0.

(** *** Matching

    Go returns the match a backtracking search finds first: the leftmost
    start, and from there the first success when a greedy star tries its
    longest run first and a lazy star its shortest. *)

Fixpoint take_bytes (n : nat) (s : string) : string :=
  match n, s with
  | S n', String c s' => String c (take_bytes n' s')
  | _, _ => EmptyString
  end.

(** The text between the position where [s] starts and the later position
    where [s'] starts. *)
Definition consumed (s s' : string) : string :=
  take_bytes (String.length s - String.length s') s.

Abbreviation Caps := (list (option string)).

Section Run.
Context {R : Type}.

Definition orelse (a b : option R) : option R :=
  match a with
  | Some r => Some r
  | None => b
  end.

Fixpoint star (greedy : bool) (m : CharMatcher) (k : string -> option R)
    (s : string) : option R :=
  match s with
  | EmptyString => k EmptyString
  | String c t =>
      if greedy
      then orelse (if accepts m c then star greedy m k t else None) (k s)
      else orelse (k s) (if accepts m c then star greedy m k t else None)
  end.

Fixpoint run (r : Regexp) (s : string) (caps : Caps)
    (k : string -> Caps -> option R) : option R :=
  match r with
  | OpEmptyMatch => k s caps
  | OpChar m =>
      match s with
      | EmptyString => None
      | String c t => if accepts m c then k t caps else None
      end
  | OpStar greedy m => star greedy m (fun s' => k s' caps) s
  | OpCapture i sub =>
      run sub s caps
        (fun s' caps' => k s' (<[i := Some (consumed s s')]> caps'))
  | OpConcat r1 r2 =>
      run r1 s caps (fun s' caps' => run r2 s' caps' k)
  end.
End Run.

(** A match of [re] that starts exactly where [s] starts. *)
Definition match_here (re : Regexp) (numSubexp : nat) (s : string)
  : option (list string) :=
  run re s (replicate (S numSubexp) None)
    (fun s' caps =>
       Some (default EmptyString <$> <[0 := Some (consumed s s')]> caps)).

(** [re.FindStringSubmatch(s)]: the text of the leftmost match followed by
    the text of each capture group, or [None] (Go's nil slice). *)
Fixpoint FindStringSubmatch (re : Regexp) (numSubexp : nat) (s : string)
  : option (list string) :=
  match match_here re numSubexp s with
  | Some m => Some m
  | None =>
      match s with
      | EmptyString => None
      | String _ t => FindStringSubmatch re numSubexp t
      end
  end.

End regexp.

Import strings regexp.

(** ** Outcomes, the world and the logger *)

Inductive PanicValue :=
| NilPointerDereference
| IndexOutOfRange (index len : nat).

(** How a call ends: it returns, it panics, the process exits
    ([os.Exit]), or it left the modelled fragment of [regexp]. *)
Inductive Outcome (A : Type) :=
| Returns (a : A)
| Panics (p : PanicValue)
| Exits (code : Z)
| OutsideModel.
Arguments Returns {A} a.
Arguments Panics {A} p.
Arguments Exits {A} code.
Arguments OutsideModel {A}.

(** One call of the logrus logger: [Debugf] with its format and
    arguments, [Fatal] with its text. *)
Inductive LogArg :=
| ArgString (s : string)
| ArgReader (s : string)      (* a [*strings.Reader] over [s] *)
| ArgInt (n : Z).

Inductive LogEntry :=
| Debugf (format : string) (args : list LogArg)
| Fatal (text : string).

Inductive Handle := HBody (url : string) | HFile (name : string).

Global Instance Handle_eq_dec : EqDecision Handle.
Proof. solve_decision. Defined.

Record World := mkWorld {
  logs : list LogEntry;            (* oldest first *)
  files : gmap string string;      (* file name to contents *)
  opened : list Handle             (* streams and files not yet closed *)
}.

Definition M (A : Type) : Type := World -> Outcome A * World.

Definition ret {A} (a : A) : M A := fun w => (Returns a, w).

Definition bind {A B} (m : M A) (f : A -> M B) : M B :=
  fun w =>
    match m w with
    | (Returns a, w') => f a w'
    | (Panics p, w') => (Panics p, w')
    | (Exits c, w') => (Exits c, w')
    | (OutsideModel, w') => (OutsideModel, w')
    end.

Notation "'let!' x ':=' m 'in' k" := (bind m (fun x => k))
  (at level 10, x name, m at level 200, k at level 200).
Notation "m ;; k" := (bind m (fun _ => k))
  (at level 100, right associativity).

Definition lift {A} (o : Outcome A) : M A := fun w => (o, w).

(** Sequencing for a computation that touches nothing of the world. *)
Definition obind {A B} (o : Outcome A) (k : A -> Outcome B) : Outcome B :=
  match o with
  | Returns a => k a
  | Panics p => Panics p
  | Exits c => Exits c
  | OutsideModel => OutsideModel
  end.

Notation "'let?' x ':=' o 'in' k" := (obind o (fun x => k))
  (at level 10, x name, o at level 200, k at level 200).

Definition emit (e : LogEntry) : M unit :=
  fun w => (Returns tt, mkWorld (logs w ++ [e]) (files w) (opened w)).

Module log.
Definition Debugf (format : string) (args : list LogArg) : M unit :=
  emit (Debugf format args).

(** [log.Fatal] writes the entry and calls [os.Exit(1)]. *)
Definition Fatal (text : string) : M unit :=
  emit (Fatal text) ;; lift (Exits 1%Z).
End log.

(** Indexing a slice: Go panics out of range. *)
Definition index {A} (l : list A) (i : nat) : Outcome A :=
  match l !! i with
  | Some x => Returns x
  | None => Panics (IndexOutOfRange i (length l))
  end.

(** [fmt.Sprintf] for a format whose only verbs are [%s], each given a
    string; a verb without an argument prints as Go prints it. *)
Fixpoint Sprintf (format : string) (args : list string) : string :=
  match format with
  | EmptyString => EmptyString
  | String c t =>
      match c, t with
      | "%"%char, String "s" t' =>
          match args with
          | a :: args' => a +:+ Sprintf t' args'
          | [] => "%!s(MISSING)" +:+ Sprintf t' []
          end
      | _, _ => String c (Sprintf t args)
      end
  end.

(** ** Package [utils] (src/utils/utils.go) *)

Module utils.

Definition ScrapeErrorMessage (message regExpression : string)
  : Outcome string :=
  match Compile regExpression with
  | SyntaxError =>
      (* [re] is nil and the method call dereferences it *)
      Panics NilPointerDereference
  | OutsideFragment => OutsideModel
  | Compiled re numSubexp =>
      match FindStringSubmatch re numSubexp message with
      | None => Returns "Error executing operation"
      | Some scrapped =>
          if length scrapped <? 2
          then Returns "Error executing operation"
          else index scrapped 1
      end
  end.

(** The function literal [f] of [CheckReturnCode]. *)
Definition f (c : ascii) : bool :=
  byte_is c "," || byte_is c ":" || byte_is c "{" || byte_is c "}"
  || byte_is c dquote || byte_is c "]" || byte_is c "[".

(** The chain of tests of [CheckReturnCode] (lines 45 to 63): the value of
    [message] when the function reaches [log.Fatal]. *)
Definition classify (message : string) : Outcome string :=
  if Contains message "<html>" then
    let scrapResponse := "<title>(.*?)</title>" in
    ScrapeErrorMessage message scrapResponse
  else if Contains message (dq "{'errors':{") then
    let scrapResponse := dq "{'errors':(.*?)}" in
    let? message := ScrapeErrorMessage message scrapResponse in
    let result := Split message "," in
    let? message := (if 1 <=? length result then index result 0
                     else Returns message) in
    let fields := FieldsFunc message f in
    Returns (Join fields " ")
  else if Contains message (dq "{'error':") then
    let scrapResponse := dq "{'error':'(.*?)'}" in
    ScrapeErrorMessage message scrapResponse
  else Returns message.

Definition CheckReturnCode (res : Z) (mesg : string) : M unit :=
  if (300 <=? res)%Z then
    let message := mesg in
    log.Debugf "Concerto API response: %s" [ArgString message] ;;
    let! message := lift (classify message) in
    log.Fatal (Sprintf "HTTP request failed: [%s]" [message])
  else ret tt.

End utils.

(** ** Package [webservice] (src/unnamed/part_001) *)

Module webservice.

Inductive error := errorString (text : string).

(** A response body: the bytes the stream delivers, and the error that
    ends it when the transfer breaks ([None]: it ends with EOF). *)
Record Body := mkBody {
  content : string;
  failure : option error
}.

Record Response := mkResponse {
  Status : string;
  StatusCode : Z;
  Header : gmap string (list string);
  ResponseBody : Body
}.

(** [http.Client]: what a request to a URL is answered with. *)
Record Client := mkClient {
  client_Get : string -> error + Response;
  client_Post : string -> string -> string -> error + Response
}.

Record Config := mkConfig {
  ApiEndpoint : string
}.

Record Webservice := mkWebservice {
  config : Config;
  client : Client
}.

Definition contentDispositionRegex : string :=
  dq "filename=\'([^\']*){1}\'".

(** [Header.Get]: the first value stored under the key; the key
    [Content-Disposition] is already in canonical form. *)
Definition Header_Get (h : gmap string (list string)) (key : string)
  : string :=
  match h !! key with
  | Some (v :: _) => v
  | _ => EmptyString
  end.

Definition open_handle (h : Handle) : M unit :=
  fun w => (Returns tt, mkWorld (logs w) (files w) (h :: opened w)).

Fixpoint remove_first (h : Handle) (l : list Handle) : list Handle :=
  match l with
  | [] => []
  | x :: l' => if decide (x = h) then l' else x :: remove_first h l'
  end.

Definition close_handle (h : Handle) (w : World) : World :=
  mkWorld (logs w) (files w) (remove_first h (opened w)).

(** [defer h.Close()] in front of [body]: the handle is closed when the
    function returns or panics. *)
Definition defer_Close {A} (h : Handle) (body : M A) : M A :=
  fun w =>
    match body w with
    | (Returns a, w') => (Returns a, close_handle h w')
    | (Panics p, w') => (Panics p, close_handle h w')
    | other => other
    end.

(** A request: the answer of the client; a response comes with an open
    body. *)
Definition do_request (answer : error + Response) (url : string)
  : M (error + Response) :=
  match answer with
  | inl err => ret (inl err)
  | inr response => open_handle (HBody url) ;; ret (inr response)
  end.

(** [ioutil.ReadAll]. *)
Definition ReadAll (b : Body) : string * option error :=
  (content b, failure b).

Definition Post (w : Webservice) (endpoint : string) (json : string)
  : M (option error) :=
  let url := ApiEndpoint (config w) +:+ endpoint in
  log.Debugf "Connecting: %s%s"
    [ArgString (ApiEndpoint (config w)); ArgString endpoint] ;;
  let output := json in
  let! r := do_request
              (client_Post (client w) url "application/json" output) url in
  log.Debugf "Posting: %s" [ArgReader output] ;;
  match r with
  | inl err => ret (Some err)
  | inr response =>
      defer_Close (HBody url)
        (log.Debugf "Status code: %s" [ArgString (Status response)] ;;
         ret None)
  end.

Definition Get (w : Webservice) (endpoint : string)
  : M (option string * option error) :=
  let url := ApiEndpoint (config w) +:+ endpoint in
  log.Debugf "Connecting: %s%s"
    [ArgString (ApiEndpoint (config w)); ArgString endpoint] ;;
  let! r := do_request (client_Get (client w) url) url in
  match r with
  | inl err => ret (None, Some err)
  | inr response =>
      defer_Close (HBody url)
        (log.Debugf "Status code: %s" [ArgString (Status response)] ;;
         match ReadAll (ResponseBody response) with
         | (_, Some err) => ret (None, Some err)
         | (body, None) => ret (Some body, None)
         end)
  end.

Section OperatingSystem.
(** [os.Create(name)] fails or not, and how many bytes the file [name]
    takes before a write to it fails ([None]: any number). *)
Variable os_Create_error : string -> option error.
Variable disk_room : string -> option nat.

Definition os_Create (name : string) : M (option error) :=
  match os_Create_error name with
  | Some err => ret (Some err)
  | None =>
      fun w =>
        (Returns None,
         mkWorld (logs w) (<[name := EmptyString]> (files w))
           (HFile name :: opened w))
  end.

(** The error of a write that is refused for lack of room: the
    [*PathError] that [os.File.Write] returns, here with the text of a
    full device. *)
Definition write_error (name : string) : error :=
  errorString ("write " +:+ name +:+ ": no space left on device").

(** [io.Copy(dst, src)] into the file just created under [name]: the
    number of bytes written and the first error met, the error of a
    failed write before the error of the stream. *)
Definition io_Copy (name : string) (src : Body) : M (nat * option error) :=
  fun w =>
    let data := content src in
    let written :=
      match disk_room name with
      | Some room => take_bytes room data
      | None => data
      end in
    let w' := mkWorld (logs w) (<[name := written]> (files w)) (opened w) in
    if String.length written <? String.length data
    then (Returns (String.length written, Some (write_error name)), w')
    else (Returns (String.length data, failure src), w').

Definition GetFile (w : Webservice) (endpoint directoryPath : string)
  : M (string * option error) :=
  let url := ApiEndpoint (config w) +:+ endpoint in
  log.Debugf "Connecting: %s%s"
    [ArgString (ApiEndpoint (config w)); ArgString endpoint] ;;
  let! r := do_request (client_Get (client w) url) url in
  match r with
  | inl err => ret (EmptyString, Some err)
  | inr response =>
      defer_Close (HBody url)
        (log.Debugf "Status code: %s" [ArgString (Status response)] ;;
         match Compile contentDispositionRegex with
         | SyntaxError =>
             ret (EmptyString, Some (errorString "error parsing regexp"))
         | OutsideFragment => lift OutsideModel
         | Compiled r numSubexp =>
             let found :=
               FindStringSubmatch r numSubexp
                 (Header_Get (Header response) "Content-Disposition") in
             (* a nil slice has length 0 *)
             let! fileName := lift (index (default [] found) 1) in
             let realFileName :=
               Sprintf "%s/%s" [directoryPath; fileName] in
             let! err := os_Create realFileName in
             match err with
             | Some err => ret (EmptyString, Some err)
             | None =>
                 defer_Close (HFile realFileName)
                   (let! c := io_Copy realFileName
                                (ResponseBody response) in
                    match c with
                    | (_, Some err) => ret (EmptyString, Some err)
                    | (n, None) =>
                        log.Debugf "%#v bytes downloaded"
                          [ArgInt (Z.of_nat n)] ;;
                        ret (realFileName, None)
                    end)
             end
         end)
  end.
End OperatingSystem.

End webservice.

Import utils webservice.

(** ** Vocabulary of the statements *)

(** A regular expression made of the bytes of [L], then one capture group
    holding a star (greedy or lazy) on a one-byte matcher, then the bytes
    of [String c2 t2].  The patterns of the program all compile to this
    form. *)
Fixpoint lits (L : string) (rest : Regexp) : Regexp :=
  match L with
  | EmptyString => rest
  | String c t => OpConcat (OpChar (Literal c)) (lits t rest)
  end.

Fixpoint lits1 (c : ascii) (t : string) : Regexp :=
  match t with
  | EmptyString => OpChar (Literal c)
  | String d t' => OpConcat (OpChar (Literal c)) (lits1 d t')
  end.

Definition delimited (L : string) (greedy : bool) (m : CharMatcher)
    (c2 : ascii) (t2 : string) : Regexp :=
  lits L (OpConcat (OpCapture 1 (OpStar greedy m)) (lits1 c2 t2)).

Definition title_re : Regexp :=
  delimited "<title>" false AnyCharNotNL "<" "/title>".
Definition errors_re : Regexp :=
  delimited (dq "{'errors':") false AnyCharNotNL "}" EmptyString.
Definition error_re : Regexp :=
  delimited (dq "{'error':'") false AnyCharNotNL dquote "}".
Definition filename_re : Regexp :=
  delimited (dq "filename='") true (CharClass true [dquote]) dquote
    EmptyString.

(** Every byte of [s] satisfies [P]. *)
Fixpoint all_bytes (P : ascii -> bool) (s : string) : bool :=
  match s with
  | EmptyString => true
  | String c t => P c && all_bytes P t
  end.

(** [s] has no line break; [s] has no double quote. *)
Definition one_line (s : string) : bool := all_bytes (accepts AnyCharNotNL) s.
Definition quote_free (s : string) : bool :=
  all_bytes (accepts (CharClass true [dquote])) s.

Definition generic : string := "Error executing operation".

(** What [ScrapeErrorMessage] makes of the result of a search: the first
    capture group, or the generic text when nothing matched. *)
Definition scraped (found : option (list string)) : string :=
  match found with
  | Some (_ :: capture :: _) => capture
  | _ => generic
  end.

(** The text of [s] in front of its first comma (all of [s] without one). *)
Fixpoint before_comma (s : string) : string :=
  match s with
  | EmptyString => EmptyString
  | String c t => if byte_is c "," then EmptyString
                  else String c (before_comma t)
  end.


(** The rule for a body with the marker of several errors, in the words of
    the specification: first segment of the capture, separators removed,
    tokens joined by one space. *)
Definition errors_rule (body : string) : string :=
  Join (FieldsFunc
          (before_comma (scraped (FindStringSubmatch errors_re 1 body))) f)
    " ".

(** The message for a body, in the words of the specification: that of the
    first rule, in the fixed order, whose marker the body contains. *)
Definition first_match (body : string) : string :=
  if Contains body "<html>" then
    scraped (FindStringSubmatch title_re 1 body)
  else if Contains body (dq "{'errors':{") then errors_rule body
  else if Contains body (dq "{'error':") then
    scraped (FindStringSubmatch error_re 1 body)
  else body.

(** The two log entries of a failed request. *)
Definition failure_entries (body message : string) : list LogEntry :=
  [Debugf "Concerto API response: %s" [ArgString body];
   Fatal ("HTTP request failed: [" +:+ message +:+ "]")].

(** The world after [entries] were logged. *)
Definition logged (w : World) (entries : list LogEntry) : World :=
  mkWorld (logs w ++ entries) (files w) (opened w).

(** The text after the first occurrence of [marker] in [s]. *)
Fixpoint after_first (marker s : string) : option string :=
  if HasPrefix s marker
  then Some (String.substring (String.length marker)
               (String.length s - String.length marker) s)
  else match s with
       | EmptyString => None
       | String _ t => after_first marker t
       end.

(** The text in front of the first double quote of [s], if it has one. *)
Fixpoint up_to_quote (s : string) : option string :=
  match s with
  | EmptyString => None
  | String c t =>
      if byte_is c dquote then Some EmptyString
      else String c <$> up_to_quote t
  end.

(** The single-error rule in the words of the specification: the quoted
    value that follows the opening of the error field, up to the next
    double quote. *)
Definition quoted_value_spec (body : string) : option string :=
  after_first (dq "{'error':'") body ≫= up_to_quote.

(** ** Inputs of the examples *)

Definition world0 : World := mkWorld [] ∅ [].

Definition not_found_page : string :=
  "<html><head><title>Not Found</title></head></html>".

Definition two_errors : string :=
  dq "{'errors':{'name':'is required','age':'must be positive'}}".

Definition two_fields : string := dq "{'error':'a','b':'c'}".

(** A service whose client answers every request with [response]. *)
Definition answering (response : Response) : Webservice :=
  mkWebservice (mkConfig "https://api.example")
    (mkClient (fun _ => inr response) (fun _ _ _ => inr response)).

(** A service whose endpoint cannot be reached. *)
Definition unreachable : Webservice :=
  mkWebservice (mkConfig "https://api.example")
    (mkClient (fun _ => inl (errorString "connection refused"))
       (fun _ _ _ => inl (errorString "connection refused"))).

Definition created : Response :=
  mkResponse "201 Created" 201 ∅ (mkBody (dq "{'id':'42'}") None).

Definition report : Response :=
  mkResponse "200 OK" 200
    {[ "Content-Disposition" := [dq "attachment; filename='report.csv'"] ]}
    (mkBody "a,b,c" None).

(** An operating system where every file can be created and written. *)
Definition always_creates : string -> option error := fun _ => None.
Definition no_limit : string -> option nat := fun _ => None.

Arguments filename_re : simpl never.

(** ** Package [utils], continued: [CheckError] and [Exists]
    (src/utils/utils.go, lines 12 to 16 and 70 to 73) *)

Module utils_os.

(** [err.Error()]. *)
Definition error_text (err : error) : string :=
  match err with
  | errorString text => text
  end.

Definition CheckError (err : option error) : M unit :=
  match err with
  | Some e => log.Fatal (error_text e)
  | None => ret tt
  end.

(** What [os.Stat] can answer besides success. *)
Inductive StatError := ErrNotExist | ErrOther (text : string).

Section Stat.
(** The answer of [os.Stat] for a name that is not one of the files of the
    world: a directory or another entry ([None]), or an error. *)
Variable stat_unlisted : string -> option StatError.

Definition os_Stat (name : string) (w : World) : option StatError :=
  match files w !! name with
  | Some _ => None
  | None => stat_unlisted name
  end.

Definition os_IsNotExist (err : option StatError) : bool :=
  match err with
  | Some ErrNotExist => true
  | _ => false
  end.

Definition Exists (name : string) (w : World) : bool :=
  let err := os_Stat name w in
  negb (os_IsNotExist err).
End Stat.

End utils_os.

(** ** Package [webservice], continued: [NewWebService] and [httpClient]
    (src/unnamed/part_001, lines 23 to 52) *)

Module webservice_new.

Inductive Certificate := X509KeyPair (certFile keyFile : string).

Record TLSConfig := mkTLSConfig {
  Certificates : list Certificate;
  InsecureSkipVerify : bool
}.

(** The configuration as [config.ConcertoServerConfiguration] returns it:
    the endpoint and the two paths of [config.Certificate]. *)
Record ServerConfiguration := mkServerConfiguration {
  server : Config;
  CertificateCert : string;
  CertificateKey : string
}.

Section Environment.
Variable ConcertoServerConfiguration : error + ServerConfiguration.
Variable tls_LoadX509KeyPair : string -> string -> error + Certificate.
(** The client that sends its requests over a transport with the given
    TLS configuration. *)
Variable http_Client : TLSConfig -> Client.

Definition httpClient (config : ServerConfiguration)
  : option Client * option error :=
  match tls_LoadX509KeyPair (CertificateCert config) (CertificateKey config)
  with
  | inl err => (None, Some err)
  | inr cert =>
      let transport := mkTLSConfig [cert] true in
      let client := http_Client transport in
      (Some client, None)
  end.

Definition NewWebService : option Webservice * option error :=
  match ConcertoServerConfiguration with
  | inl err => (None, Some err)
  | inr config =>
      match httpClient config with
      | (_, Some err) => (None, Some err)
      | (Some client, None) => (Some (mkWebservice (server config) client), None)
      | (None, None) => (None, None)
      end
  end.
End Environment.

End webservice_new.

(** ** Package [templates]: [cmdDelete] and [cmdDeleteTemplateScript]
    (src/unnamed/part_000, lines 314 to 323 and 429 to 441)

    The commands call three functions of the repository that are not in
    its source as given: [utils.FlagsRequired], the flag lookup of the
    command line and the [Delete] method of the service, which returns an
    error, a body and a status.  They are parameters here. *)

Module templates.
Import utils_os webservice_new.

Section Commands.
Variable Context : Type.
Variable c_String : Context -> string -> string.
Variable FlagsRequired : Context -> list string -> M unit.
Variable ConcertoServerConfiguration : error + ServerConfiguration.
Variable tls_LoadX509KeyPair : string -> string -> error + Certificate.
Variable http_Client : TLSConfig -> Client.
Variable Delete : Webservice -> string -> M (option error * string * Z).

(** A method call on the service; on a nil pointer it panics. *)
Definition call_Delete (webservice : option Webservice) (endpoint : string)
  : M (option error * string * Z) :=
  match webservice with
  | Some w => Delete w endpoint
  | None => lift (Panics NilPointerDereference)
  end.

Definition cmdDelete (c : Context) : M unit :=
  FlagsRequired c ["id"] ;;
  let (webservice, err) :=
    NewWebService ConcertoServerConfiguration tls_LoadX509KeyPair
      http_Client in
  CheckError err ;;
  let! r := call_Delete webservice
              (Sprintf "/v1/blueprint/templates/%s" [c_String c "id"]) in
  let '(err, mesg, res) := r in
  CheckError err ;;
  CheckReturnCode res mesg.

Definition cmdDeleteTemplateScript (c : Context) : M unit :=
  FlagsRequired c ["id"; "template_id"] ;;
  let (webservice, err) :=
    NewWebService ConcertoServerConfiguration tls_LoadX509KeyPair
      http_Client in
  CheckError err ;;
  let! r := call_Delete webservice
              (Sprintf "/v1/blueprint/templates/%s/scripts/%s"
                 [c_String c "template_id"; c_String c "id"]) in
  let '(err, mesg, res) := r in
  CheckError err ;;
  CheckReturnCode res mesg.
End Commands.

End templates.

(** ** More inputs of the examples *)

Definition broken : Response :=
  mkResponse "200 OK" 200
    {[ "Content-Disposition" := [dq "attachment; filename='report.csv'"] ]}
    (mkBody "a,b" (Some (errorString "unexpected EOF"))).

Definition two_line_error : string :=
  dq "{'error':'disk" +:+ String newline (dq "full'} {'error':'retry'}").

Definition two_line_page : string :=
  "<html><head><title>Not" +:+ String newline "Found</title></head></html>".


Definition world_with_old : World :=
  mkWorld [] {[ "/tmp/out/old.csv" := "kept" ]} [].

Definition never_creates : string -> option error :=
  fun _ => Some (errorString "permission denied").


Definition no_other_entry : string -> option utils_os.StatError :=
  fun _ => Some utils_os.ErrNotExist.

Definition flags : Type := string -> string.

Definition flag_lookup (c : flags) (name : string) : string := c name.

Definition flags_present (c : flags) (names : list string) : M unit :=
  ret tt.

Definition id_7 : flags := fun name => if String.eqb name "id" then "7" else EmptyString.

Definition good_configuration : error + webservice_new.ServerConfiguration :=
  inr (webservice_new.mkServerConfiguration (mkConfig "https://api.example")
         "/etc/concerto/cert.crt" "/etc/concerto/private.key").

Definition no_configuration : error + webservice_new.ServerConfiguration :=
  inl (errorString "configuration not found").

Definition loads_key_pair (certFile keyFile : string)
  : error + webservice_new.Certificate :=
  inr (webservice_new.X509KeyPair certFile keyFile).

Definition any_client (transport : webservice_new.TLSConfig) : Client :=
  client (answering created).

(** A [Delete] that is answered with the given error, body and status. *)
Definition delete_answers (err : option error) (mesg : string) (res : Z)
    (w : Webservice) (endpoint : string) : M (option error * string * Z) :=
  ret (err, mesg, res).

(** * Properties *)

(** ** Strings *)

Section StringFacts.

Lemma app_cons (c : ascii) (s t : string) :
  String c s +:+ t = String c (s +:+ t).
Proof. reflexivity. Qed.

Lemma app_empty_r (s : string) : s +:+ EmptyString = s.
Proof. induction s as [|c s IH]; [reflexivity|]. rewrite app_cons. by f_equal. Qed.

Lemma app_assoc' (a b c : string) : (a +:+ b) +:+ c = a +:+ b +:+ c.
Proof.
  induction a as [|x a IH]; [reflexivity|].
  rewrite !app_cons. by f_equal.
Qed.

Lemma length_app' (a b : string) :
  String.length (a +:+ b) = String.length a + String.length b.
Proof.
  induction a as [|x a IH]; [reflexivity|].
  rewrite app_cons. simpl. by rewrite IH.
Qed.

Lemma take_bytes_app (a b : string) :
  take_bytes (String.length a) (a +:+ b) = a.
Proof.
  induction a as [|x a IH]; [by destruct b|].
  rewrite app_cons. simpl. by rewrite IH.
Qed.

Lemma consumed_app (a b : string) : consumed (a +:+ b) b = a.
Proof.
  unfold consumed. rewrite length_app'.
  replace (String.length a + String.length b - String.length b)
    with (String.length a) by lia.
  apply take_bytes_app.
Qed.

Lemma HasPrefix_app (p t : string) : HasPrefix (p +:+ t) p = true.
Proof.
  induction p as [|x p IH]; [by destruct t|].
  rewrite app_cons. simpl. by rewrite Ascii.eqb_refl.
Qed.

Lemma HasPrefix_split (s p : string) :
  HasPrefix s p = true -> exists t, s = p +:+ t.
Proof.
  revert s. induction p as [|x p IH]; intros s H.
  - by exists s.
  - destruct s as [|c s]; [done|]. simpl in H.
    apply andb_prop in H as [Hc Hp]. apply Ascii.eqb_eq in Hc as ->.
    destruct (IH _ Hp) as [t ->]. by exists t.
Qed.

Lemma Index_ge (s p : string) : (-1 <= Index s p)%Z.
Proof.
  induction s as [|c s IH]; cbn [Index].
  - destruct (HasPrefix EmptyString p); lia.
  - destruct (HasPrefix (String c s) p); [lia|].
    destruct (Z.ltb_spec (Index s p) 0); lia.
Qed.

(** The first occurrence is past a non-empty prefix: nothing starts at the
    head, and the tail has its first occurrence one byte earlier. *)
Lemma Index_succ (c : ascii) (s p : string) (n : nat) :
  Index (String c s) p = Z.of_nat (S n) ->
  HasPrefix (String c s) p = false /\ Index s p = Z.of_nat n.
Proof.
  cbn [Index]. destruct (HasPrefix (String c s) p); [lia|].
  intros H. split; [done|].
  destruct (Z.ltb_spec (Index s p) 0); lia.
Qed.

Lemma Index_none_cons (c : ascii) (s p : string) :
  Index (String c s) p = (-1)%Z ->
  HasPrefix (String c s) p = false /\ Index s p = (-1)%Z.
Proof.
  cbn [Index]. destruct (HasPrefix (String c s) p); [lia|].
  intros H. split; [done|].
  pose proof (Index_ge s p). destruct (Z.ltb_spec (Index s p) 0); lia.
Qed.

Lemma Index_none_head (s p : string) :
  Index s p = (-1)%Z -> HasPrefix s p = false.
Proof.
  destruct s as [|c s].
  - cbn [Index]. destruct (HasPrefix EmptyString p); [lia|done].
  - intros H. by apply Index_none_cons in H as [? _].
Qed.

Lemma Contains_false (s p : string) :
  Contains s p = false -> Index s p = (-1)%Z.
Proof.
  unfold Contains. pose proof (Index_ge s p).
  destruct (Z.leb_spec 0 (Index s p)); [done|lia].
Qed.

(** No occurrence in [s] means no occurrence at the start of any suffix. *)
Lemma Index_none_suffix (a b p : string) :
  Index (a +:+ b) p = (-1)%Z -> Index b p = (-1)%Z.
Proof.
  induction a as [|x a IH]; [done|].
  rewrite app_cons. intros H. apply Index_none_cons in H as [_ H]. auto.
Qed.

Lemma Index_app_0 (p t : string) : Index (p +:+ t) p = 0%Z.
Proof.
  destruct (p +:+ t) eqn:E; cbn [Index]; rewrite <- E, HasPrefix_app; done.
Qed.

End StringFacts.

(** ** The matcher *)

Section MatcherFacts.
Context {R : Type}.
Implicit Types (k : string -> Caps -> option R) (caps : Caps).

Lemma run_lits_here L rest t caps k :
  run (lits L rest) (L +:+ t) caps k = run rest t caps k.
Proof.
  induction L as [|c L IH]; [reflexivity|].
  rewrite app_cons. cbn. by rewrite Ascii.eqb_refl.
Qed.

Lemma run_lits_miss L rest s caps k :
  HasPrefix s L = false -> run (lits L rest) s caps k = None.
Proof.
  revert s. induction L as [|c L IH]; intros s H; [by destruct s|].
  destruct s as [|x s]; [reflexivity|]. cbn in *.
  destruct (Ascii.eqb x c); [|reflexivity]. by apply IH.
Qed.

Lemma run_lits1_here c L t caps k :
  run (lits1 c L) (String c L +:+ t) caps k = k t caps.
Proof.
  revert c. induction L as [|d L IH]; intros c; rewrite app_cons; cbn;
    rewrite Ascii.eqb_refl; [reflexivity|]. apply (IH d).
Qed.

Lemma run_lits1_miss c L s caps k :
  HasPrefix s (String c L) = false -> run (lits1 c L) s caps k = None.
Proof.
  revert c s. induction L as [|d L IH]; intros c s H.
  - destruct s as [|x s]; [reflexivity|]. cbn in *.
    destruct (Ascii.eqb x c); [|reflexivity]. by destruct s.
  - destruct s as [|x s]; [reflexivity|]. cbn in *.
    destruct (Ascii.eqb x c); [|reflexivity]. by apply IH.
Qed.

(** A star fails when its continuation fails at every later position. *)
Lemma star_none g m (k : string -> option R) s :
  (forall a b, s = a +:+ b -> k b = None) -> star g m k s = None.
Proof.
  induction s as [|c s IH]; intros H.
  - apply (H EmptyString). reflexivity.
  - assert (star g m k s = None) as Hs.
    { apply IH. intros a b ->. apply (H (String c a)). reflexivity. }
    assert (k (String c s) = None) as Hk by (apply (H EmptyString); reflexivity).
    cbn. rewrite Hs, Hk. by destruct g, (accepts m c).
Qed.

(** A lazy star stops at the first position where the continuation
    succeeds; here the continuation needs [p] in front of it. *)
Lemma star_lazy_first m (k : string -> option R) p v rest r :
  all_bytes (accepts m) v = true ->
  (forall s, HasPrefix s p = false -> k s = None) ->
  Index (v +:+ rest) p = Z.of_nat (String.length v) ->
  k rest = Some r ->
  star false m k (v +:+ rest) = Some r.
Proof.
  intros Hv Hk. induction v as [|c v IH]; intros Hi Hr.
  - change (EmptyString +:+ rest) with rest.
    destruct rest; cbn; by rewrite Hr.
  - rewrite app_cons in *. cbn in Hv. apply andb_prop in Hv as [Hc Hv].
    apply Index_succ in Hi as [Hp Hi]. cbn.
    rewrite (Hk _ Hp), Hc. cbn. by apply IH.
Qed.

(** A greedy star runs to the first byte it does not accept. *)
Lemma star_greedy_stop m (k : string -> option R) v rest r :
  all_bytes (accepts m) v = true ->
  match rest with
  | EmptyString => True
  | String c _ => accepts m c = false
  end ->
  k rest = Some r ->
  star true m k (v +:+ rest) = Some r.
Proof.
  intros Hv Hrest Hr. induction v as [|c v IH].
  - change (EmptyString +:+ rest) with rest.
    destruct rest; cbn; [done|]. by rewrite Hrest, Hr.
  - rewrite app_cons. cbn in Hv. apply andb_prop in Hv as [Hc Hv].
    cbn. rewrite Hc, (IH Hv). reflexivity.
Qed.

(** What holds of every result of the continuation holds of the run. *)
Lemma star_inv (P : option R -> Prop) g m (k : string -> option R) s :
  P None -> (forall s', P (k s')) -> P (star g m k s).
Proof.
  intros HN Hk. induction s as [|c s IH]; cbn; [apply Hk|].
  destruct g, (accepts m c); cbn.
  - destruct (star true m k s); [done|apply Hk].
  - apply Hk.
  - pose proof (Hk (String c s)). by destruct (k (String c s)).
  - pose proof (Hk (String c s)). by destruct (k (String c s)).
Qed.

Lemma run_inv (P : option R -> Prop) (n : nat) r :
  P None ->
  forall s caps k,
    length caps = n ->
    (forall s' caps', length caps' = n -> P (k s' caps')) ->
    P (run r s caps k).
Proof.
  intros HN. induction r as [|m|g m|i sub IH|r1 IH1 r2 IH2];
    intros s caps k Hc Hk; cbn.
  - by apply Hk.
  - destruct s as [|c s]; [done|]. destruct (accepts m c); [by apply Hk|done].
  - apply star_inv; [done|]. intros s'. by apply Hk.
  - apply IH; [done|]. intros s' caps' Hc'. apply Hk.
    by rewrite length_insert.
  - apply IH1; [done|]. intros s' caps' Hc'. by apply IH2.
Qed.

End MatcherFacts.

(** ** Searching *)

Section SearchFacts.
Implicit Types (L s pre v post : string) (m : CharMatcher).

Lemma match_here_length re n s l :
  match_here re n s = Some l -> length l = S n.
Proof.
  unfold match_here.
  apply (run_inv (fun o => forall l, o = Some l -> length l = S n) (S n));
    [done|by rewrite length_replicate|].
  intros s' caps' Hc l' [= <-].
  by rewrite length_fmap, length_insert.
Qed.

Lemma FindStringSubmatch_length re n s l :
  FindStringSubmatch re n s = Some l -> length l = S n.
Proof.
  induction s as [|c s IH]; cbn [FindStringSubmatch];
    destruct (match_here re n _) eqn:E; intros [= <-] || intros H;
    eauto using match_here_length; done.
Qed.

(** With one capture group a match is the matched text and the capture. *)
Lemma FindStringSubmatch_two re s l :
  FindStringSubmatch re 1 s = Some l -> exists whole capture, l = [whole; capture].
Proof.
  intros H. apply FindStringSubmatch_length in H.
  destruct l as [|a [|b [|? ?]]]; try done. by exists a, b.
Qed.

(** The search steps over everything in front of the first occurrence of
    the opening literal. *)
Lemma find_skip L rest n pre s :
  Index (pre +:+ s) L = Z.of_nat (String.length pre) ->
  FindStringSubmatch (lits L rest) n (pre +:+ s)
  = FindStringSubmatch (lits L rest) n s.
Proof.
  induction pre as [|c pre IH]; [done|].
  rewrite app_cons. intros H. apply Index_succ in H as [Hp Hi].
  cbn [FindStringSubmatch]. unfold match_here at 1.
  rewrite run_lits_miss by done. by apply IH.
Qed.

Lemma find_none_opening L rest n s :
  Contains s L = false -> FindStringSubmatch (lits L rest) n s = None.
Proof.
  intros H. apply Contains_false in H.
  induction s as [|c s IH]; cbn [FindStringSubmatch]; unfold match_here.
  - rewrite run_lits_miss; [done|]. by apply Index_none_head.
  - apply Index_none_cons in H as [Hp Hi].
    rewrite run_lits_miss by done. by apply IH.
Qed.

Lemma match_here_none_closing L g m c2 t2 n s :
  Index s (String c2 t2) = (-1)%Z ->
  match_here (delimited L g m c2 t2) n s = None.
Proof.
  intros H. unfold match_here, delimited.
  destruct (HasPrefix s L) eqn:E; [|by apply run_lits_miss].
  apply HasPrefix_split in E as [t ->]. rewrite run_lits_here. cbn [run].
  apply star_none. intros a b ->. apply run_lits1_miss.
  apply Index_none_head. by do 2 apply Index_none_suffix in H.
Qed.

Lemma find_none_closing L g m c2 t2 n s :
  Contains s (String c2 t2) = false ->
  FindStringSubmatch (delimited L g m c2 t2) n s = None.
Proof.
  intros H. apply Contains_false in H.
  induction s as [|c s IH]; cbn [FindStringSubmatch];
    rewrite match_here_none_closing by done; [done|].
  apply IH. by apply Index_none_cons in H as [_ ?].
Qed.

Lemma found_caps L v L2 post :
  default EmptyString <$>
    <[0 := Some (consumed (L +:+ v +:+ L2 +:+ post) post)]>
      (<[1 := Some (consumed (v +:+ L2 +:+ post) (L2 +:+ post))]>
         (replicate 2 None))
  = [L +:+ v +:+ L2; v].
Proof.
  rewrite consumed_app.
  replace (L +:+ v +:+ L2 +:+ post) with ((L +:+ v +:+ L2) +:+ post)
    by (by rewrite !app_assoc').
  by rewrite consumed_app.
Qed.

Lemma match_here_lazy L m c2 t2 v post :
  all_bytes (accepts m) v = true ->
  Index (v +:+ String c2 t2 +:+ post) (String c2 t2)
  = Z.of_nat (String.length v) ->
  match_here (delimited L false m c2 t2) 1
    (L +:+ v +:+ String c2 t2 +:+ post)
  = Some [L +:+ v +:+ String c2 t2; v].
Proof.
  intros Hv Hi. unfold match_here, delimited.
  rewrite run_lits_here. cbn [run].
  apply star_lazy_first with (p := String c2 t2); [done| |done|].
  - intros s Hs. by apply run_lits1_miss.
  - rewrite run_lits1_here. by rewrite found_caps.
Qed.

Lemma match_here_greedy L m c2 t2 v post :
  all_bytes (accepts m) v = true ->
  accepts m c2 = false ->
  match_here (delimited L true m c2 t2) 1
    (L +:+ v +:+ String c2 t2 +:+ post)
  = Some [L +:+ v +:+ String c2 t2; v].
Proof.
  intros Hv Hc. unfold match_here, delimited.
  rewrite run_lits_here. cbn [run].
  apply star_greedy_stop; [done|by rewrite app_cons|].
  rewrite run_lits1_here. by rewrite found_caps.
Qed.

(** The leftmost match of a lazy delimited pattern: the first opening
    literal, then a run of accepted bytes up to the first closing
    literal. *)
Lemma find_lazy L m c2 t2 pre v post :
  Index (pre +:+ L +:+ v +:+ String c2 t2 +:+ post) L
  = Z.of_nat (String.length pre) ->
  all_bytes (accepts m) v = true ->
  Index (v +:+ String c2 t2 +:+ post) (String c2 t2)
  = Z.of_nat (String.length v) ->
  FindStringSubmatch (delimited L false m c2 t2) 1
    (pre +:+ L +:+ v +:+ String c2 t2 +:+ post)
  = Some [L +:+ v +:+ String c2 t2; v].
Proof.
  intros Hpre Hv Hi. unfold delimited at 1. rewrite find_skip by done.
  fold (delimited L false m c2 t2).
  destruct (L +:+ v +:+ String c2 t2 +:+ post) eqn:E;
    cbn [FindStringSubmatch]; rewrite <- E; by rewrite match_here_lazy.
Qed.

Lemma find_greedy L m c2 t2 pre v post :
  Index (pre +:+ L +:+ v +:+ String c2 t2 +:+ post) L
  = Z.of_nat (String.length pre) ->
  all_bytes (accepts m) v = true ->
  accepts m c2 = false ->
  FindStringSubmatch (delimited L true m c2 t2) 1
    (pre +:+ L +:+ v +:+ String c2 t2 +:+ post)
  = Some [L +:+ v +:+ String c2 t2; v].
Proof.
  intros Hpre Hv Hc. unfold delimited at 1. rewrite find_skip by done.
  fold (delimited L true m c2 t2).
  destruct (L +:+ v +:+ String c2 t2 +:+ post) eqn:E;
    cbn [FindStringSubmatch]; rewrite <- E; by rewrite match_here_greedy.
Qed.

End SearchFacts.

(** ** The patterns of the program *)

Lemma Compile_title : Compile "<title>(.*?)</title>" = Compiled title_re 1.
Proof. reflexivity. Qed.

Lemma Compile_errors : Compile (dq "{'errors':(.*?)}") = Compiled errors_re 1.
Proof. reflexivity. Qed.

Lemma Compile_error : Compile (dq "{'error':'(.*?)'}") = Compiled error_re 1.
Proof. reflexivity. Qed.

Lemma Compile_filename :
  Compile contentDispositionRegex = Compiled filename_re 1.
Proof. reflexivity. Qed.

(** With a pattern that compiles to one capture group, scraping returns
    the capture of the leftmost match, or the generic text without one. *)
Lemma ScrapeErrorMessage_compiled message regExpression re :
  Compile regExpression = Compiled re 1 ->
  ScrapeErrorMessage message regExpression
  = Returns (scraped (FindStringSubmatch re 1 message)).
Proof.
  intros HC. unfold ScrapeErrorMessage. rewrite HC.
  destruct (FindStringSubmatch re 1 message) as [l|] eqn:E; [|done].
  by destruct (FindStringSubmatch_two _ _ _ E) as (whole & capture & ->).
Qed.

(** ** Splitting and joining *)

Section SplitJoinFacts.

Lemma Split_go_comma cur s :
  exists rest, Split_go "," 0 cur s = (cur +:+ before_comma s) :: rest.
Proof.
  revert cur. induction s as [|c s IH]; intros cur.
  - exists []. cbn. by rewrite app_empty_r.
  - cbn [Split_go before_comma HasPrefix]. unfold byte_is.
    destruct (Ascii.eqb c ",") eqn:E.
    + destruct s; cbn; rewrite app_empty_r; eauto.
    + replace (false && _) with false by done.
      destruct (IH (cur +:+ String c EmptyString)) as [rest ->].
      exists rest. by rewrite app_assoc'.
Qed.

(** The first piece of a split at commas is the text before the first
    comma. *)
Lemma Split_comma s : exists rest, Split s "," = before_comma s :: rest.
Proof. apply (Split_go_comma EmptyString). Qed.




Lemma all_bytes_app P a b :
  all_bytes P (a +:+ b) = all_bytes P a && all_bytes P b.
Proof.
  induction a as [|c a IH]; [done|].
  rewrite app_cons. cbn. by rewrite IH, andb_assoc.
Qed.


Lemma Join_clean P l sep :
  all_bytes P sep = true ->
  Forall (fun x => all_bytes P x = true) l ->
  all_bytes P (Join l sep) = true.
Proof.
  intros Hsep. induction 1 as [|x l Hx Hl IH]; [done|].
  destruct l as [|y l]; [done|].
  change (Join (x :: y :: l) sep) with (x +:+ sep +:+ Join (y :: l) sep).
  by rewrite !all_bytes_app, Hx, Hsep, IH.
Qed.


(** Text without separators is one field and is left as it is. *)
Lemma FieldsFunc_go_plain sep field s :
  all_bytes (fun c => negb (sep c)) s = true ->
  Join (FieldsFunc_go sep field s) " " = field +:+ s.
Proof.
  revert field. induction s as [|c s IH]; intros field H; cbn [FieldsFunc_go].
  - rewrite app_empty_r. by destruct field.
  - cbn in H. apply andb_prop in H as [Hc Hs].
    destruct (sep c); [done|]. rewrite IH by done. by rewrite app_assoc'.
Qed.

End SplitJoinFacts.

(** ** The classifier *)

Section ClassifierFacts.

Lemma errors_branch body :
  (let? message := ScrapeErrorMessage body (dq "{'errors':(.*?)}") in
   let result := Split message "," in
   let? message := (if 1 <=? length result then index result 0
                    else Returns message) in
   Returns (Join (FieldsFunc message f) " "))
  = Returns (errors_rule body).
Proof.
  rewrite (ScrapeErrorMessage_compiled _ _ _ Compile_errors).
  cbn [obind]. cbv zeta.
  destruct (Split_comma (scraped (FindStringSubmatch errors_re 1 body)))
    as [rest ->].
  reflexivity.
Qed.

(** The classifier always returns, and returns the message of the first
    rule that applies. *)
Lemma classify_first_match body : classify body = Returns (first_match body).
Proof.
  unfold classify, first_match. cbv zeta.
  destruct (Contains body "<html>").
  { apply (ScrapeErrorMessage_compiled _ _ _ Compile_title). }
  destruct (Contains body (dq "{'errors':{")).
  { apply errors_branch. }
  destruct (Contains body (dq "{'error':")); [|done].
  apply (ScrapeErrorMessage_compiled _ _ _ Compile_error).
Qed.

Lemma CheckReturnCode_failed res mesg w :
  (300 <= res)%Z ->
  CheckReturnCode res mesg w
  = (Exits 1, logged w (failure_entries mesg (first_match mesg))).
Proof.
  intros H. unfold CheckReturnCode.
  destruct (Z.leb_spec 300 res); [|lia].
  unfold bind, log.Debugf, log.Fatal, emit, lift, bind. cbn.
  rewrite classify_first_match. cbn. unfold logged, failure_entries.
  by rewrite <- app_assoc.
Qed.

Lemma CheckReturnCode_passed res mesg w :
  (res < 300)%Z -> CheckReturnCode res mesg w = (Returns tt, w).
Proof.
  intros H. unfold CheckReturnCode. by destruct (Z.leb_spec 300 res); [lia|].
Qed.

End ClassifierFacts.

(** A literal occurs in every string built around it. *)
Lemma Contains_app (pre L rest : string) :
  Contains (pre +:+ L +:+ rest) L = true.
Proof.
  unfold Contains. apply Z.leb_le.
  induction pre as [|c pre IH].
  - change (EmptyString +:+ L +:+ rest) with (L +:+ rest).
    by rewrite Index_app_0.
  - rewrite app_cons. cbn [Index].
    destruct (HasPrefix _ L); [done|].
    destruct (Z.ltb_spec (Index (pre +:+ L +:+ rest) L) 0); lia.
Qed.

(** * The specification against the code *)

(** C1, amended.  A status of 300 or more ends in the fatal report of the
    message chosen by the first rule, in the fixed order, whose marker the body
    contains: the title of a page with [<html>], else the rule for
    several errors, else the rule for one error, else the body itself.
    For a page, when the text between the first [<title>] and the next
    [</title>] is on one line, the message is that text; and a page is
    treated as a page whatever JSON markers it also contains. *)
Theorem C1_first_match_wins (res : Z) (mesg : string) (w : World) :
  (300 <= res)%Z ->
  CheckReturnCode res mesg w
  = (Exits 1, logged w (failure_entries mesg (first_match mesg)))
  /\ (Contains mesg "<html>" = true ->
      ScrapeErrorMessage mesg "<title>(.*?)</title>"
      = Returns (first_match mesg))
  /\ (forall pre t post,
        mesg = pre +:+ "<title>" +:+ t +:+ "</title>" +:+ post ->
        Contains mesg "<html>" = true ->
        Index mesg "<title>" = Z.of_nat (String.length pre) ->
        Index (t +:+ "</title>" +:+ post) "</title>"
        = Z.of_nat (String.length t) ->
        one_line t = true ->
        first_match mesg = t)
  /\ (Contains mesg "<html>" = false ->
      Contains mesg (dq "{'errors':{") = true ->
      first_match mesg = errors_rule mesg)
  /\ (Contains mesg "<html>" = false ->
      Contains mesg (dq "{'errors':{") = false ->
      Contains mesg (dq "{'error':") = true ->
      ScrapeErrorMessage mesg (dq "{'error':'(.*?)'}")
      = Returns (first_match mesg))
  /\ (Contains mesg "<html>" = false ->
      Contains mesg (dq "{'errors':{") = false ->
      Contains mesg (dq "{'error':") = false ->
      first_match mesg = mesg).
Proof.
  intros Hres. split; [by apply CheckReturnCode_failed|].
  unfold first_match. repeat split.
  - intros ->. apply (ScrapeErrorMessage_compiled _ _ _ Compile_title).
  - intros pre t post -> -> Hpre Ht Hline.
    unfold title_re. by rewrite find_lazy.
  - by intros -> ->.
  - intros -> -> ->. apply (ScrapeErrorMessage_compiled _ _ _ Compile_error).
  - by intros -> -> ->.
Qed.

Lemma C1_witness :
  CheckReturnCode 404 not_found_page world0
  = (Exits 1,
     logged world0
       [Debugf "Concerto API response: %s" [ArgString not_found_page];
        Fatal "HTTP request failed: [Not Found]"]).
Proof.
  destruct (C1_first_match_wins 404 not_found_page world0) as [H _]; [lia|].
  rewrite H. reflexivity.
Defined.

(** C1 as stated fails: for a page, the message is not always the text
    between the first [<title>] and the next [</title>].  A title that
    runs over two lines is not captured, and the generic text is
    reported. *)
Lemma C1_counterexample :
  ~ (forall mesg pre t post,
       mesg = pre +:+ "<title>" +:+ t +:+ "</title>" +:+ post ->
       Contains mesg "<html>" = true ->
       Index mesg "<title>" = Z.of_nat (String.length pre) ->
       Index (t +:+ "</title>" +:+ post) "</title>"
       = Z.of_nat (String.length t) ->
       classify mesg = Returns t).
Proof.
  intros H.
  specialize (H two_line_page "<html><head>"
                ("Not" +:+ String newline "Found") "</head></html>"
                eq_refl eq_refl eq_refl eq_refl).
  vm_compute in H. discriminate H.
Qed.



(** C3.  Classification never fails: it returns a message for every
    body.  In the three cases with a pattern, a pattern that does not
    match gives the generic text; in particular a page without an opening
    or without a closing title tag gives it. *)
Theorem C3_generic_when_no_match (mesg : string) :
  (exists message, classify mesg = Returns message)
  /\ (Contains mesg "<html>" = true ->
      FindStringSubmatch title_re 1 mesg = None ->
      classify mesg = Returns "Error executing operation")
  /\ (Contains mesg "<html>" = false ->
      Contains mesg (dq "{'errors':{") = true ->
      FindStringSubmatch errors_re 1 mesg = None ->
      classify mesg = Returns "Error executing operation")
  /\ (Contains mesg "<html>" = false ->
      Contains mesg (dq "{'errors':{") = false ->
      Contains mesg (dq "{'error':") = true ->
      FindStringSubmatch error_re 1 mesg = None ->
      classify mesg = Returns "Error executing operation")
  /\ (Contains mesg "<html>" = true ->
      Contains mesg "<title>" = false \/ Contains mesg "</title>" = false ->
      classify mesg = Returns "Error executing operation").
Proof.
  rewrite classify_first_match. unfold first_match, errors_rule.
  split; [by eexists|]. repeat split.
  - by intros -> ->.
  - by intros -> -> ->.
  - by intros -> -> -> ->.
  - intros -> [H|H].
    + unfold title_re, delimited. by rewrite find_none_opening.
    + unfold title_re. by rewrite find_none_closing.
Qed.

Lemma C3_witness :
  classify "<html><body><h1>Bad Gateway</h1></body></html>"
  = Returns "Error executing operation".
Proof.
  apply (C3_generic_when_no_match
           "<html><body><h1>Bad Gateway</h1></body></html>").
  - reflexivity.
  - left. reflexivity.
Defined.

(** C4.  [CheckReturnCode] ends the process exactly when the status is
    300 or more.  Below 300 it returns with the world as it was: nothing
    classified, nothing logged.  From 300 on it logs the fatal report
    [HTTP request failed: [message]] with the classified message and
    exits, whatever the body is. *)
Theorem C4_fatal_iff_300 (res : Z) (mesg : string) (w : World) :
  ((res < 300)%Z -> CheckReturnCode res mesg w = (Returns tt, w))
  /\ ((300 <= res)%Z ->
      exists message,
        classify mesg = Returns message
        /\ CheckReturnCode res mesg w
           = (Exits 1,
              logged w
                [Debugf "Concerto API response: %s" [ArgString mesg];
                 Fatal ("HTTP request failed: [" +:+ message +:+ "]")]))
  /\ ((exists code, (CheckReturnCode res mesg w).1 = Exits code)
      <-> (300 <= res)%Z).
Proof.
  split; [apply CheckReturnCode_passed|]. split.
  - intros H. exists (first_match mesg).
    split; [apply classify_first_match|by apply CheckReturnCode_failed].
  - split.
    + intros [code H]. destruct (Z.lt_ge_cases res 300) as [Hlt|]; [|done].
      by rewrite CheckReturnCode_passed in H.
    + intros H. exists 1%Z. by rewrite CheckReturnCode_failed.
Qed.

Lemma C4_witness :
  CheckReturnCode 299 not_found_page world0 = (Returns tt, world0)
  /\ exists message,
       classify not_found_page = Returns message
       /\ CheckReturnCode 300 not_found_page world0
          = (Exits 1,
             logged world0
               [Debugf "Concerto API response: %s" [ArgString not_found_page];
                Fatal ("HTTP request failed: [" +:+ message +:+ "]")]).
Proof.
  split.
  - apply (C4_fatal_iff_300 299 not_found_page world0). lia.
  - apply (C4_fatal_iff_300 300 not_found_page world0). lia.
Defined.

(** C8 as stated fails: for a body with the single-error marker only,
    the message is not always the quoted value that follows the opening
    of the error field up to the next double quote. *)
Lemma C8_counterexample :
  ~ (forall body value,
       Contains body "<html>" = false ->
       Contains body (dq "{'errors':{") = false ->
       Contains body (dq "{'error':") = true ->
       quoted_value_spec body = Some value ->
       classify body = Returns value).
Proof.
  intros H.
  specialize (H two_fields "a" eq_refl eq_refl eq_refl eq_refl).
  vm_compute in H. discriminate H.
Qed.

(** C8, amended.  For a body with the single-error marker and neither
    [<html>] nor the marker of several errors, the message is the text
    that follows the first opening of the error field (brace, quoted
    name, colon, quote) up to the next quote that a closing brace
    directly follows, when that text is on one line. *)
Theorem C8_error_message (pre value post : string) :
  let mesg := pre +:+ dq "{'error':'" +:+ value +:+ dq "'}" +:+ post in
  Contains mesg "<html>" = false ->
  Contains mesg (dq "{'errors':{") = false ->
  Index mesg (dq "{'error':'") = Z.of_nat (String.length pre) ->
  Index (value +:+ dq "'}" +:+ post) (dq "'}")
  = Z.of_nat (String.length value) ->
  one_line value = true ->
  Contains mesg (dq "{'error':") = true
  /\ classify mesg = Returns value.
Proof.
  intros mesg Hhtml Herrors Hpre Hvalue Hline.
  assert (Contains mesg (dq "{'error':") = true) as Herror.
  { unfold mesg.
    change (dq "{'error':'") with (dq "{'error':" +:+ dq "'").
    rewrite app_assoc'. apply Contains_app. }
  split; [done|].
  rewrite classify_first_match. unfold first_match.
  rewrite Hhtml, Herrors, Herror. unfold error_re, mesg.
  change (dq "'}") with (String dquote "}") in *.
  by rewrite find_lazy.
Qed.

Lemma C8_witness :
  classify (dq "{'error':'invalid token'}") = Returns "invalid token".
Proof.
  apply (C8_error_message EmptyString "invalid token" EmptyString);
    reflexivity.
Defined.

(** C10.  For a page whose first opening title tag is directly followed
    by the closing tag, the pattern matches with an empty capture: the
    message is the empty string and the fatal report reads
    [HTTP request failed: []], not the generic text.  Whenever the title
    pattern matches, the message is its capture, empty or not; the
    generic text stands for no match. *)
Theorem C10_empty_title (res : Z) (pre post : string) (w : World) :
  let mesg := pre +:+ "<title></title>" +:+ post in
  (300 <= res)%Z ->
  Contains mesg "<html>" = true ->
  Index mesg "<title>" = Z.of_nat (String.length pre) ->
  FindStringSubmatch title_re 1 mesg = Some ["<title></title>"; EmptyString]
  /\ ScrapeErrorMessage mesg "<title>(.*?)</title>" = Returns EmptyString
  /\ classify mesg = Returns EmptyString
  /\ CheckReturnCode res mesg w
     = (Exits 1,
        logged w [Debugf "Concerto API response: %s" [ArgString mesg];
                  Fatal "HTTP request failed: []"])
  /\ (forall body found,
        FindStringSubmatch title_re 1 body = Some found ->
        exists whole capture,
          found = [whole; capture]
          /\ ScrapeErrorMessage body "<title>(.*?)</title>"
             = Returns capture).
Proof.
  intros mesg Hres Hhtml Hpre.
  assert (FindStringSubmatch title_re 1 mesg
          = Some ["<title></title>"; EmptyString]) as Hfound.
  { unfold mesg, title_re in *.
    change ("<title></title>" +:+ post)
      with ("<title>" +:+ EmptyString +:+ "</title>" +:+ post) in *.
    rewrite find_lazy; [done|done|done|].
    apply (Index_app_0 "</title>" post). }
  assert (first_match mesg = EmptyString) as Hmsg.
  { unfold first_match. by rewrite Hhtml, Hfound. }
  repeat split.
  - done.
  - rewrite (ScrapeErrorMessage_compiled _ _ _ Compile_title).
    by rewrite Hfound.
  - by rewrite classify_first_match, Hmsg.
  - rewrite CheckReturnCode_failed by done. by rewrite Hmsg.
  - intros body found H.
    destruct (FindStringSubmatch_two _ _ _ H) as (whole & capture & ->).
    exists whole, capture. split; [done|].
    rewrite (ScrapeErrorMessage_compiled _ _ _ Compile_title).
    by rewrite H.
Qed.

Lemma C10_witness :
  CheckReturnCode 500 "<html><head><title></title></head></html>" world0
  = (Exits 1,
     logged world0
       [Debugf "Concerto API response: %s"
          [ArgString "<html><head><title></title></head></html>"];
        Fatal "HTTP request failed: []"]).
Proof.
  apply (C10_empty_title 500 "<html><head>" "</head></html>" world0).
  - lia.
  - reflexivity.
  - reflexivity.
Defined.

(** ** The request primitives *)

Ltac run_monad :=
  unfold Post, Get, GetFile, bind, ret, lift, log.Debugf, emit, do_request,
    open_handle, defer_Close, ReadAll, os_Create, io_Copy; cbn -[Nat.ltb].

Lemma take_bytes_all n s :
  (String.length (take_bytes n s) <? String.length s) = false ->
  take_bytes n s = s.
Proof.
  revert n. induction s as [|c s IH]; intros [|n] H; try done.
  cbn in *. f_equal. by apply IH.
Qed.

Lemma Sprintf_path directoryPath fileName :
  Sprintf "%s/%s" [directoryPath; fileName]
  = directoryPath +:+ "/" +:+ fileName.
Proof. cbn. by rewrite app_empty_r. Qed.

(** C7.  When the connection cannot be established, the error of the
    client is all a primitive returns: [Get] returns no body, [GetFile]
    returns no path and leaves the files as they were (none created,
    none written), [Post] returns the error; only the line that announces
    the connection (and, for [Post], the payload) was logged. *)
Theorem C7_transport_error_only
    (os_Create_error : string -> option error)
    (disk_room : string -> option nat)
    (w : Webservice) (endpoint directoryPath json : string)
    (err : error) (world : World) :
  let url := ApiEndpoint (config w) +:+ endpoint in
  let connecting :=
    Debugf "Connecting: %s%s"
      [ArgString (ApiEndpoint (config w)); ArgString endpoint] in
  (client_Get (client w) url = inl err ->
   Get w endpoint world
   = (Returns (None, Some err), logged world [connecting])
   /\ GetFile os_Create_error disk_room w endpoint directoryPath world
      = (Returns (EmptyString, Some err), logged world [connecting])
   /\ files (GetFile os_Create_error disk_room w endpoint directoryPath
               world).2
      = files world)
  /\ (client_Post (client w) url "application/json" json = inl err ->
      Post w endpoint json world
      = (Returns (Some err),
         logged world [connecting; Debugf "Posting: %s" [ArgReader json]])).
Proof.
  intros url connecting. split.
  - intros H. run_monad. fold url. rewrite H. cbn. done.
  - intros H. run_monad. fold url. rewrite H. cbn. unfold logged. cbn.
    by rewrite <- app_assoc.
Qed.

Lemma C7_witness :
  GetFile always_creates no_limit unreachable "/v1/files/7" "/tmp/out" world0
  = (Returns (EmptyString, Some (errorString "connection refused")),
     logged world0
       [Debugf "Connecting: %s%s"
          [ArgString "https://api.example"; ArgString "/v1/files/7"]])
  /\ Post unreachable "/v1/files/7" "{}" world0
     = (Returns (Some (errorString "connection refused")),
        logged world0
          [Debugf "Connecting: %s%s"
             [ArgString "https://api.example"; ArgString "/v1/files/7"];
           Debugf "Posting: %s" [ArgReader "{}"]]).
Proof.
  split.
  - apply (C7_transport_error_only always_creates no_limit unreachable
             "/v1/files/7" "/tmp/out" "{}" (errorString "connection refused")
             world0).
    reflexivity.
  - apply (C7_transport_error_only always_creates no_limit unreachable
             "/v1/files/7" "/tmp/out" "{}" (errorString "connection refused")
             world0).
    reflexivity.
Defined.

(** C5 fails on the code: after a successful exchange [Post] returns a
    nil error and nothing else, whatever the status and the body of the
    response, and [Get] returns the body without the status. *)
Theorem C5_Post_drops_status_and_body
    (response : Response) (endpoint json : string) (world : World) :
  (Post (answering response) endpoint json world).1 = Returns None
  /\ (Get (answering response) endpoint world).1
     = Returns (match failure (ResponseBody response) with
                | Some err => (None, Some err)
                | None => (Some (content (ResponseBody response)), None)
                end).
Proof.
  split; run_monad; [done|].
  by destruct (failure (ResponseBody response)).
Qed.

(** C6 fails on the code: without a file name in the header the search
    returns nil and [GetFile] indexes it, which panics. *)
Theorem C6_GetFile_panics_without_filename
    (os_Create_error : string -> option error)
    (disk_room : string -> option nat)
    (response : Response) (endpoint directoryPath : string) (world : World) :
  Header response !! "Content-Disposition" = None
  \/ FindStringSubmatch filename_re 1
       (Header_Get (Header response) "Content-Disposition") = None ->
  (GetFile os_Create_error disk_room (answering response) endpoint
     directoryPath world).1
  = Panics (IndexOutOfRange 1 0).
Proof.
  intros H.
  assert (FindStringSubmatch filename_re 1
            (Header_Get (Header response) "Content-Disposition") = None)
    as Hnone.
  { destruct H as [H|H]; [|done]. unfold Header_Get. by rewrite H. }
  unfold GetFile. rewrite Compile_filename. run_monad. by rewrite Hnone.
Qed.

Lemma C6_witness :
  (GetFile always_creates no_limit (answering created) "/v1/files/7"
     "/tmp/out" world0).1
  = Panics (IndexOutOfRange 1 0).
Proof.
  apply (C6_GetFile_panics_without_filename always_creates no_limit created).
  left. reflexivity.
Defined.

(** The file name of a header: the quote-free text between the first
    [filename=] with its opening quote and the closing quote. *)
Lemma filename_found (pre name post : string) :
  Index (pre +:+ dq "filename='" +:+ name +:+ dq "'" +:+ post)
    (dq "filename='")
  = Z.of_nat (String.length pre) ->
  quote_free name = true ->
  FindStringSubmatch filename_re 1
    (pre +:+ dq "filename='" +:+ name +:+ dq "'" +:+ post)
  = Some [dq "filename='" +:+ name +:+ dq "'"; name].
Proof.
  intros Hpre Hname. unfold filename_re.
  change (dq "'") with (String dquote EmptyString) in *.
  by rewrite find_greedy.
Qed.

(** A download goes through when the response names the file, the file
    can be created and written in full, and the body arrives whole. *)
Lemma GetFile_downloads
    (os_Create_error : string -> option error)
    (disk_room : string -> option nat)
    (w : Webservice) (endpoint directoryPath : string) (world : World)
    (response : Response) (pre name post : string) :
  let header := Header_Get (Header response) "Content-Disposition" in
  let path := directoryPath +:+ "/" +:+ name in
  client_Get (client w) (ApiEndpoint (config w) +:+ endpoint)
  = inr response ->
  header = pre +:+ dq "filename='" +:+ name +:+ dq "'" +:+ post ->
  Index header (dq "filename='") = Z.of_nat (String.length pre) ->
  quote_free name = true ->
  os_Create_error path = None ->
  disk_room path = None ->
  failure (ResponseBody response) = None ->
  (GetFile os_Create_error disk_room w endpoint directoryPath world).1
  = Returns (path, None)
  /\ files (GetFile os_Create_error disk_room w endpoint directoryPath
              world).2 !! path
     = Some (content (ResponseBody response)).
Proof.
  intros header path Hget Hheader Hpre Hname Hcreate Hroom Hbody.
  assert (FindStringSubmatch filename_re 1 header
          = Some [dq "filename='" +:+ name +:+ dq "'"; name]) as Hfound.
  { rewrite Hheader in *. by apply filename_found. }
  unfold GetFile. rewrite Compile_filename. run_monad.
  rewrite Hget. cbn -[Nat.ltb]. fold header. rewrite Hfound. cbn -[Nat.ltb].
  rewrite app_empty_r.
  change (directoryPath +:+ String "/" name) with path.
  rewrite Hcreate. cbn -[Nat.ltb].
  rewrite Hroom, Nat.ltb_irrefl, Hbody. cbn.
  split; [done|]. apply lookup_insert_eq.
Qed.

(** C9.  A download that succeeds returns the directory, a slash and the
    file name captured from the [Content-Disposition] header, and the
    file under that path holds the whole body of the response, byte for
    byte.  For a header that gives a quote-free name between the first
    [filename=] with its quote and the next quote, the captured name is
    that name. *)
Theorem C9_download_written
    (os_Create_error : string -> option error)
    (disk_room : string -> option nat)
    (w : Webservice) (endpoint directoryPath : string) (world : World)
    (path : string) :
  (GetFile os_Create_error disk_room w endpoint directoryPath world).1
  = Returns (path, None) ->
  exists response whole fileName,
    let header := Header_Get (Header response) "Content-Disposition" in
    client_Get (client w) (ApiEndpoint (config w) +:+ endpoint)
    = inr response
    /\ FindStringSubmatch filename_re 1 header = Some [whole; fileName]
    /\ path = directoryPath +:+ "/" +:+ fileName
    /\ files (GetFile os_Create_error disk_room w endpoint directoryPath
                world).2 !! path
       = Some (content (ResponseBody response))
    /\ failure (ResponseBody response) = None
    /\ (forall pre name post,
          header = pre +:+ dq "filename='" +:+ name +:+ dq "'" +:+ post ->
          Index header (dq "filename='") = Z.of_nat (String.length pre) ->
          quote_free name = true ->
          fileName = name).
Proof.
  unfold GetFile. rewrite Compile_filename. run_monad.
  destruct (client_Get _ _) as [err|response] eqn:Hget; cbn -[Nat.ltb]; [done|].
  destruct (FindStringSubmatch filename_re 1 _) as [found|] eqn:Hfound;
    cbn -[Nat.ltb]; [|done].
  destruct (FindStringSubmatch_two _ _ _ Hfound) as (whole & fileName & ->).
  cbn -[Nat.ltb]. rewrite app_empty_r.
  destruct (os_Create_error _) as [err|] eqn:Hcreate; cbn -[Nat.ltb]; [done|].
  destruct (_ <? _) eqn:Hshort; cbn -[Nat.ltb]; [done|].
  destruct (failure (ResponseBody response)) as [err|] eqn:Hbody; cbn -[Nat.ltb];
    [done|].
  intros [= <-]. exists response, whole, fileName. cbn.
  repeat split; try done.
  - rewrite lookup_insert_eq. f_equal.
    destruct (disk_room _); [by apply take_bytes_all|done].
  - intros pre name post Hheader Hpre Hname.
    rewrite Hheader in Hpre, Hfound.
    rewrite filename_found in Hfound by done. by injection Hfound.
Qed.

Lemma C9_witness :
  (GetFile always_creates no_limit (answering report) "/v1/files/7"
     "/tmp/out" world0).1
  = Returns ("/tmp/out/report.csv", None)
  /\ files (GetFile always_creates no_limit (answering report) "/v1/files/7"
              "/tmp/out" world0).2 !! "/tmp/out/report.csv"
     = Some "a,b,c".
Proof.
  split; [reflexivity|].
  destruct (C9_download_written always_creates no_limit (answering report)
              "/v1/files/7" "/tmp/out" world0 "/tmp/out/report.csv")
    as (response & whole & fileName & Hget & _ & _ & Hfile & _);
    [reflexivity|].
  injection Hget as <-. exact Hfile.
Defined.

(** * Further properties of the code *)

(** ** What a match is made of *)

Section MatchShape.
Context {R : Type}.

Lemma orelse_inv (P : option R -> Prop) (a b : option R) :
  P a -> P b -> P (orelse a b).
Proof. by destruct a. Qed.

(** A star hands to its continuation only positions that a run of
    accepted bytes leads to. *)
Lemma star_prefix_inv (P : option R -> Prop) g m (k : string -> option R) t :
  P None ->
  (forall v s', t = v +:+ s' -> all_bytes (accepts m) v = true -> P (k s')) ->
  P (star g m k t).
Proof.
  intros HN. induction t as [|c t IH]; intros Hk.
  - cbn. by apply (Hk EmptyString).
  - assert (P (k (String c t))) as Hhere by (by apply (Hk EmptyString)).
    assert (P (if accepts m c then star g m k t else None)) as Hnext.
    { destruct (accepts m c) eqn:Hc; [|done].
      apply IH. intros v s' -> Hv. apply (Hk (String c v)); [done|].
      cbn. by rewrite Hc. }
    cbn. destruct g; by apply orelse_inv.
Qed.

End MatchShape.

Lemma match_here_shape L g m c2 t2 s l :
  match_here (delimited L g m c2 t2) 1 s = Some l ->
  exists capture post,
    s = L +:+ capture +:+ String c2 t2 +:+ post
    /\ l = [L +:+ capture +:+ String c2 t2; capture]
    /\ all_bytes (accepts m) capture = true.
Proof.
  unfold match_here, delimited.
  destruct (HasPrefix s L) eqn:E; [|by rewrite run_lits_miss].
  apply HasPrefix_split in E as [t ->]. rewrite run_lits_here. cbn [run].
  revert l.
  apply (star_prefix_inv
           (fun o => forall l, o = Some l ->
              exists capture post,
                L +:+ t = L +:+ capture +:+ String c2 t2 +:+ post
                /\ l = [L +:+ capture +:+ String c2 t2; capture]
                /\ all_bytes (accepts m) capture = true)); [done|].
  intros v s' -> Hv l.
  destruct (HasPrefix s' (String c2 t2)) eqn:E2;
    [|by rewrite run_lits1_miss].
  apply HasPrefix_split in E2 as [post ->]. rewrite run_lits1_here.
  rewrite found_caps. intros [= <-]. by exists v, post.
Qed.

(** Every match of a delimited pattern is an occurrence in the text: the
    opening literal, a run of accepted bytes (the capture), the closing
    literal. *)
Lemma find_shape L g m c2 t2 s l :
  FindStringSubmatch (delimited L g m c2 t2) 1 s = Some l ->
  exists pre capture post,
    s = pre +:+ L +:+ capture +:+ String c2 t2 +:+ post
    /\ l = [L +:+ capture +:+ String c2 t2; capture]
    /\ all_bytes (accepts m) capture = true.
Proof.
  induction s as [|c s IH]; cbn [FindStringSubmatch];
    destruct (match_here _ 1 _) as [l'|] eqn:E.
  - intros [= <-]. apply match_here_shape in E as (cap & post & ? & ? & ?).
    by exists EmptyString, cap, post.
  - done.
  - intros [= <-]. apply match_here_shape in E as (cap & post & ? & ? & ?).
    by exists EmptyString, cap, post.
  - intros H. destruct (IH H) as (pre & cap & post & -> & ? & ?).
    by exists (String c pre), cap, post.
Qed.

Lemma scraped_shape L g m c2 t2 s :
  scraped (FindStringSubmatch (delimited L g m c2 t2) 1 s) = generic
  \/ exists pre post,
       s = pre +:+ L
             +:+ scraped (FindStringSubmatch (delimited L g m c2 t2) 1 s)
             +:+ String c2 t2 +:+ post
       /\ all_bytes (accepts m)
            (scraped (FindStringSubmatch (delimited L g m c2 t2) 1 s))
          = true.
Proof.
  destruct (FindStringSubmatch _ 1 s) as [l|] eqn:E; [|by left].
  apply find_shape in E as (pre & cap & post & -> & -> & Hcap).
  right. by exists pre, post.
Qed.

(** ** [ScrapeErrorMessage] *)



(** ** The message of [CheckReturnCode] *)

Lemma all_bytes_before_comma P s :
  all_bytes P s = true -> all_bytes P (before_comma s) = true.
Proof.
  induction s as [|c s IH]; [done|]. cbn.
  intros [Hc Hs]%andb_prop. destruct (byte_is c ","); [done|].
  cbn. by rewrite Hc, IH.
Qed.

Lemma FieldsFunc_go_all P sep field s :
  all_bytes P field = true ->
  all_bytes P s = true ->
  Forall (fun x => all_bytes P x = true) (FieldsFunc_go sep field s).
Proof.
  revert field. induction s as [|c s IH]; intros field Hf Hs;
    cbn [FieldsFunc_go].
  - destruct field; [constructor|]. by repeat constructor.
  - cbn in Hs. apply andb_prop in Hs as [Hc Hs]. destruct (sep c).
    + destruct field; [by apply IH|]. constructor; [done|by apply IH].
    + apply IH; [|done]. rewrite all_bytes_app, Hf. cbn. by rewrite Hc.
Qed.

Lemma FieldsFunc_go_separators sep s :
  all_bytes sep s = true -> FieldsFunc_go sep EmptyString s = [].
Proof.
  induction s as [|c s IH]; [done|]. cbn.
  intros [Hc Hs]%andb_prop. rewrite Hc. by apply IH.
Qed.

Lemma errors_rule_one_line body : one_line (errors_rule body) = true.
Proof.
  unfold errors_rule, one_line. apply Join_clean; [done|].
  apply FieldsFunc_go_all; [done|]. apply all_bytes_before_comma.
  unfold errors_re.
  destruct (scraped_shape (dq "{'errors':") false AnyCharNotNL "}"
              EmptyString body) as [->|(_ & _ & _ & H)]; done.
Qed.

(** X2.  A message taken from a page or from a single-error body is never
    made up: it is either the generic text or a text that stands in the
    body between the literals of the pattern, the title tags for a page,
    the opening of the error field and a quote followed by a brace for a
    single error. *)
Theorem X2_message_stands_in_the_body (mesg message : string) :
  classify mesg = Returns message ->
  (Contains mesg "<html>" = true ->
   message = "Error executing operation"
   \/ exists pre post,
        mesg = pre +:+ "<title>" +:+ message +:+ "</title>" +:+ post)
  /\ (Contains mesg "<html>" = false ->
      Contains mesg (dq "{'errors':{") = false ->
      Contains mesg (dq "{'error':") = true ->
      message = "Error executing operation"
      \/ exists pre post,
           mesg = pre +:+ dq "{'error':'" +:+ message +:+ dq "'}" +:+ post).
Proof.
  rewrite classify_first_match. intros [= <-]. unfold first_match. split.
  - intros ->. unfold title_re.
    destruct (scraped_shape "<title>" false AnyCharNotNL "<" "/title>" mesg)
      as [H|(pre & post & H & _)]; [by left|right]. by exists pre, post.
  - intros -> -> ->. unfold error_re.
    destruct (scraped_shape (dq "{'error':'") false AnyCharNotNL dquote "}"
                mesg)
      as [H|(pre & post & H & _)]; [by left|right]. by exists pre, post.
Qed.

Lemma X2_witness :
  exists pre post,
    not_found_page
    = pre +:+ "<title>" +:+ "Not Found" +:+ "</title>" +:+ post.
Proof.
  destruct (proj1 (X2_message_stands_in_the_body not_found_page "Not Found"
                     eq_refl) eq_refl) as [H|H];
    [discriminate H|exact H].
Defined.

(** X3.  Whenever the body carries one of the three markers, the message
    that [CheckReturnCode] reports has no line break, whatever the body
    contains; only a body without marker is reported as it is. *)
Theorem X3_marked_message_is_one_line (mesg message : string) :
  Contains mesg "<html>" = true
  \/ Contains mesg (dq "{'errors':{") = true
  \/ Contains mesg (dq "{'error':") = true ->
  classify mesg = Returns message ->
  one_line message = true.
Proof.
  intros Hmark. rewrite classify_first_match. intros [= <-].
  unfold first_match.
  assert (one_line (scraped (FindStringSubmatch title_re 1 mesg)) = true)
    as Htitle.
  { unfold title_re.
    by destruct (scraped_shape "<title>" false AnyCharNotNL "<" "/title>"
                   mesg) as [->|(_ & _ & _ & H)]. }
  assert (one_line (scraped (FindStringSubmatch error_re 1 mesg)) = true)
    as Herror.
  { unfold error_re.
    by destruct (scraped_shape (dq "{'error':'") false AnyCharNotNL dquote
                   "}" mesg) as [->|(_ & _ & _ & H)]. }
  destruct (Contains mesg "<html>"); [done|].
  destruct (Contains mesg (dq "{'errors':{")); [apply errors_rule_one_line|].
  destruct (Contains mesg (dq "{'error':")); [done|].
  by destruct Hmark as [?|[?|?]].
Qed.

Lemma X3_witness :
  classify two_line_error = Returns "retry" /\ one_line "retry" = true.
Proof.
  split; [reflexivity|].
  apply (X3_marked_message_is_one_line two_line_error "retry");
    [right; right|]; reflexivity.
Defined.

(** X4.  For a body with the marker of several errors, the capture is the
    text between the first opening of the errors field and the next
    closing brace, when that text is on one line; the message is made
    from its part before the first comma, and it is empty when that part
    holds separators only (as for an empty object of errors). *)
Theorem X4_errors_capture (pre value post : string) :
  let mesg := pre +:+ dq "{'errors':" +:+ value +:+ "}" +:+ post in
  Contains mesg "<html>" = false ->
  Contains mesg (dq "{'errors':{") = true ->
  Index mesg (dq "{'errors':") = Z.of_nat (String.length pre) ->
  Index (value +:+ "}" +:+ post) "}" = Z.of_nat (String.length value) ->
  one_line value = true ->
  classify mesg = Returns (Join (FieldsFunc (before_comma value) f) " ")
  /\ (all_bytes f (before_comma value) = true ->
      classify mesg = Returns EmptyString).
Proof.
  intros mesg Hhtml Herrors Hpre Hvalue Hline.
  assert (classify mesg
          = Returns (Join (FieldsFunc (before_comma value) f) " ")) as H.
  { rewrite classify_first_match. unfold first_match.
    rewrite Hhtml, Herrors. unfold errors_rule, errors_re, mesg.
    by rewrite find_lazy. }
  split; [done|]. intros Hsep. rewrite H. unfold FieldsFunc.
  by rewrite FieldsFunc_go_separators.
Qed.

Lemma X4_witness : classify (dq "{'errors':{}}") = Returns EmptyString.
Proof.
  apply (X4_errors_capture EmptyString "{" "}"); reflexivity.
Defined.

(** ** The request primitives: handles and files *)

Lemma remove_first_head (h : Handle) (l : list Handle) :
  remove_first h (h :: l) = l.
Proof. cbn. by rewrite decide_True. Qed.

Ltac close_handles :=
  unfold close_handle; cbn -[Nat.ltb]; rewrite ?decide_True by done;
  rewrite ?remove_first_head.

(** X5.  Every request primitive closes what it opens: when [Post], [Get]
    or [GetFile] ends (with a result, an error or the panic of the
    missing file name), the response body and the destination file it
    opened are closed again. *)
Theorem X5_no_handle_left_open
    (os_Create_error : string -> option error)
    (disk_room : string -> option nat)
    (w : Webservice) (endpoint directoryPath json : string) (world : World) :
  opened (Post w endpoint json world).2 = opened world
  /\ opened (Get w endpoint world).2 = opened world
  /\ opened (GetFile os_Create_error disk_room w endpoint directoryPath
               world).2
     = opened world.
Proof.
  repeat split.
  - run_monad. destruct (client_Post _ _ _ _); cbn; [done|].
    by close_handles.
  - run_monad. destruct (client_Get _ _); cbn; [done|].
    destruct (failure _); by close_handles.
  - unfold GetFile. rewrite Compile_filename. run_monad.
    destruct (client_Get _ _) as [err|response]; cbn -[Nat.ltb]; [done|].
    destruct (FindStringSubmatch filename_re 1 _) as [found|] eqn:Hfound;
      cbn -[Nat.ltb]; [|by close_handles].
    destruct (FindStringSubmatch_two _ _ _ Hfound) as (whole & name & ->).
    cbn -[Nat.ltb].
    destruct (os_Create_error _); cbn -[Nat.ltb]; [by close_handles|].
    destruct (_ <? _); cbn -[Nat.ltb]; [by close_handles|].
    destruct (failure _); by close_handles.
Qed.



(** ** [GetFile]: every way it ends *)





(** X8.  When the destination file cannot be created, [GetFile] returns
    the error of [os.Create] and no path; it has logged the connection
    and the status, and the files and the open handles are as they
    were. *)
Theorem X8_create_error_changes_nothing
    (os_Create_error : string -> option error)
    (disk_room : string -> option nat)
    (w : Webservice) (endpoint directoryPath : string) (world : World)
    (response : Response) (whole fileName : string) (err : error) :
  client_Get (client w) (ApiEndpoint (config w) +:+ endpoint)
  = inr response ->
  FindStringSubmatch filename_re 1
    (Header_Get (Header response) "Content-Disposition")
  = Some [whole; fileName] ->
  os_Create_error (directoryPath +:+ "/" +:+ fileName) = Some err ->
  GetFile os_Create_error disk_room w endpoint directoryPath world
  = (Returns (EmptyString, Some err),
     logged world
       [Debugf "Connecting: %s%s"
          [ArgString (ApiEndpoint (config w)); ArgString endpoint];
        Debugf "Status code: %s" [ArgString (Status response)]]).
Proof.
  intros Hget Hfound Hcreate. unfold GetFile.
  rewrite Compile_filename. run_monad.
  rewrite Hget. cbn -[Nat.ltb]. rewrite Hfound. cbn -[Nat.ltb].
  rewrite app_empty_r.
  change (directoryPath +:+ String "/" fileName)
    with (directoryPath +:+ "/" +:+ fileName).
  rewrite Hcreate. close_handles.
  unfold logged. cbn. by rewrite <- app_assoc.
Qed.

Lemma X8_witness :
  GetFile never_creates no_limit (answering report) "/v1/files/7" "/tmp/out"
    world_with_old
  = (Returns (EmptyString, Some (errorString "permission denied")),
     logged world_with_old
       [Debugf "Connecting: %s%s"
          [ArgString "https://api.example"; ArgString "/v1/files/7"];
        Debugf "Status code: %s" [ArgString "200 OK"]]).
Proof.
  apply (X8_create_error_changes_nothing never_creates no_limit
           (answering report) "/v1/files/7" "/tmp/out" world_with_old
           report (dq "filename='report.csv'") "report.csv"
           (errorString "permission denied"));
    reflexivity.
Defined.

(** X9.  [GetFile] ends in one of three ways only: it returns an error
    with the empty path, it returns without error a path that starts
    with the directory and a slash, or it panics on the index of the
    missing file name.  It never exits the process and never returns a
    path together with an error. *)
Theorem X9_GetFile_endings
    (os_Create_error : string -> option error)
    (disk_room : string -> option nat)
    (w : Webservice) (endpoint directoryPath : string) (world : World) :
  match (GetFile os_Create_error disk_room w endpoint directoryPath
           world).1 with
  | Returns (path, Some _) => path = EmptyString
  | Returns (path, None) =>
      exists fileName, path = directoryPath +:+ "/" +:+ fileName
  | Panics p => p = IndexOutOfRange 1 0
  | Exits _ => False
  | OutsideModel => False
  end.
Proof.
  unfold GetFile. rewrite Compile_filename. run_monad.
  destruct (client_Get _ _) as [err|response]; cbn -[Nat.ltb]; [done|].
  destruct (FindStringSubmatch filename_re 1 _) as [found|] eqn:Hfound;
    cbn -[Nat.ltb]; [|done].
  destruct (FindStringSubmatch_two _ _ _ Hfound) as (whole & fileName & ->).
  cbn -[Nat.ltb]. rewrite app_empty_r.
  destruct (os_Create_error _); cbn -[Nat.ltb]; [done|].
  destruct (_ <? _); cbn -[Nat.ltb]; [done|].
  destruct (failure _); cbn -[Nat.ltb]; [done|].
  by exists fileName.
Qed.

(** X10.  The whole effect of a download that goes through: for a
    response that names the file, a file that can be created and written
    in full and a body that arrives whole, [GetFile] returns the path;
    it logs the connection, the status and the number of bytes of the
    body; the file holds the body, replacing what it held; the handles
    are closed. *)
Theorem X10_download_effect
    (os_Create_error : string -> option error)
    (disk_room : string -> option nat)
    (w : Webservice) (endpoint directoryPath : string) (world : World)
    (response : Response) (pre name post : string) :
  let header := Header_Get (Header response) "Content-Disposition" in
  let path := directoryPath +:+ "/" +:+ name in
  let data := content (ResponseBody response) in
  client_Get (client w) (ApiEndpoint (config w) +:+ endpoint)
  = inr response ->
  header = pre +:+ dq "filename='" +:+ name +:+ dq "'" +:+ post ->
  Index header (dq "filename='") = Z.of_nat (String.length pre) ->
  quote_free name = true ->
  os_Create_error path = None ->
  disk_room path = None ->
  failure (ResponseBody response) = None ->
  GetFile os_Create_error disk_room w endpoint directoryPath world
  = (Returns (path, None),
     mkWorld
       (logs world ++
        [Debugf "Connecting: %s%s"
           [ArgString (ApiEndpoint (config w)); ArgString endpoint];
         Debugf "Status code: %s" [ArgString (Status response)];
         Debugf "%#v bytes downloaded"
           [ArgInt (Z.of_nat (String.length data))]])
       (<[path := data]> (files world))
       (opened world)).
Proof.
  intros header path data Hget Hheader Hpre Hname Hcreate Hroom Hbody.
  assert (FindStringSubmatch filename_re 1 header
          = Some [dq "filename='" +:+ name +:+ dq "'"; name]) as Hfound.
  { rewrite Hheader in *. by apply filename_found. }
  unfold GetFile. rewrite Compile_filename. run_monad.
  rewrite Hget. cbn -[Nat.ltb]. fold header. rewrite Hfound. cbn -[Nat.ltb].
  rewrite app_empty_r.
  change (directoryPath +:+ String "/" name) with path.
  rewrite Hcreate. cbn -[Nat.ltb].
  rewrite Hroom, Nat.ltb_irrefl, Hbody. close_handles.
  rewrite insert_insert_eq. fold data. by rewrite <- !app_assoc.
Qed.

Lemma X10_witness :
  GetFile always_creates no_limit (answering report) "/v1/files/7" "/tmp/out"
    world0
  = (Returns ("/tmp/out/report.csv", None),
     mkWorld
       [Debugf "Connecting: %s%s"
          [ArgString "https://api.example"; ArgString "/v1/files/7"];
        Debugf "Status code: %s" [ArgString "200 OK"];
        Debugf "%#v bytes downloaded" [ArgInt 5]]
       (<["/tmp/out/report.csv" := "a,b,c"]> ∅) []).
Proof.
  apply (X10_download_effect always_creates no_limit (answering report)
           "/v1/files/7" "/tmp/out" world0 report "attachment; "
           "report.csv" EmptyString);
    reflexivity.
Defined.

Lemma GetFile_success
    (os_Create_error : string -> option error)
    (disk_room : string -> option nat)
    (w : Webservice) (endpoint directoryPath : string) (world : World)
    (path : string) :
  (GetFile os_Create_error disk_room w endpoint directoryPath world).1
  = Returns (path, None) ->
  exists response whole fileName,
    client_Get (client w) (ApiEndpoint (config w) +:+ endpoint)
    = inr response
    /\ FindStringSubmatch filename_re 1
         (Header_Get (Header response) "Content-Disposition")
       = Some [whole; fileName]
    /\ path = directoryPath +:+ "/" +:+ fileName
    /\ is_Some (files (GetFile os_Create_error disk_room w endpoint
                         directoryPath world).2 !! path).
Proof.
  unfold GetFile. rewrite Compile_filename. run_monad.
  destruct (client_Get _ _) as [err|response] eqn:Hget; cbn -[Nat.ltb];
    [done|].
  destruct (FindStringSubmatch filename_re 1 _) as [found|] eqn:Hfound;
    cbn -[Nat.ltb]; [|done].
  destruct (FindStringSubmatch_two _ _ _ Hfound) as (whole & fileName & ->).
  cbn -[Nat.ltb]. rewrite app_empty_r.
  destruct (os_Create_error _); cbn -[Nat.ltb]; [done|].
  destruct (_ <? _); cbn -[Nat.ltb]; [done|].
  destruct (failure _); cbn -[Nat.ltb]; [done|].
  intros [= <-]. exists response, whole, fileName.
  repeat split; try done. rewrite lookup_insert_eq. by eexists.
Qed.

(** X11.  The name under which a download is saved is always taken from
    the header: after a download that succeeds, the value of
    [Content-Disposition] holds [filename=], a quote, the name and a
    quote, the name has no double quote in it, and the path is the
    directory, a slash and that name. *)
Theorem X11_saved_name_comes_from_the_header
    (os_Create_error : string -> option error)
    (disk_room : string -> option nat)
    (w : Webservice) (endpoint directoryPath : string) (world : World)
    (path : string) :
  (GetFile os_Create_error disk_room w endpoint directoryPath world).1
  = Returns (path, None) ->
  exists response pre name post,
    client_Get (client w) (ApiEndpoint (config w) +:+ endpoint)
    = inr response
    /\ Header_Get (Header response) "Content-Disposition"
       = pre +:+ dq "filename='" +:+ name +:+ dq "'" +:+ post
    /\ quote_free name = true
    /\ path = directoryPath +:+ "/" +:+ name.
Proof.
  intros H.
  destruct (GetFile_success _ _ _ _ _ _ _ H)
    as (response & whole & fileName & Hget & Hfound & -> & _).
  unfold filename_re in Hfound.
  apply find_shape in Hfound as (pre & name & post & Hheader & Hl & Hname).
  injection Hl as _ ->.
  by exists response, pre, name, post.
Qed.

Lemma X11_witness :
  exists response pre name post,
    client_Get (client (answering report))
      (ApiEndpoint (config (answering report)) +:+ "/v1/files/7")
    = inr response
    /\ Header_Get (Header response) "Content-Disposition"
       = pre +:+ dq "filename='" +:+ name +:+ dq "'" +:+ post
    /\ quote_free name = true
    /\ "/tmp/out/report.csv" = "/tmp/out" +:+ "/" +:+ name.
Proof.
  apply (X11_saved_name_comes_from_the_header always_creates no_limit
           (answering report) "/v1/files/7" "/tmp/out" world0
           "/tmp/out/report.csv").
  reflexivity.
Defined.

(** ** [Exists] *)

(** X12.  After a download that succeeds, [Exists] answers true for the
    returned path, whatever [os.Stat] says of other names.  In general
    [Exists] answers false only when [os.Stat] reports that the name
    does not exist: any other error of [os.Stat] counts as existing. *)
Theorem X12_downloaded_file_exists
    (stat_unlisted : string -> option utils_os.StatError)
    (os_Create_error : string -> option error)
    (disk_room : string -> option nat)
    (w : Webservice) (endpoint directoryPath : string) (world : World)
    (path : string) :
  ((GetFile os_Create_error disk_room w endpoint directoryPath world).1
   = Returns (path, None) ->
   utils_os.Exists stat_unlisted path
     (GetFile os_Create_error disk_room w endpoint directoryPath world).2
   = true)
  /\ (forall name,
        utils_os.Exists stat_unlisted name world = false
        <-> files world !! name = None
            /\ stat_unlisted name = Some utils_os.ErrNotExist).
Proof.
  split.
  - intros H.
    destruct (GetFile_success _ _ _ _ _ _ _ H)
      as (_ & _ & _ & _ & _ & _ & [data Hfile]).
    unfold utils_os.Exists, utils_os.os_Stat. by rewrite Hfile.
  - intros name. unfold utils_os.Exists, utils_os.os_Stat.
    destruct (files world !! name); [by split; [|intros [? _]]|].
    destruct (stat_unlisted name) as [[|text]|]; cbn; split;
      try done; by intros [_ ?].
Qed.

Lemma X12_witness :
  utils_os.Exists no_other_entry "/tmp/out/report.csv"
    (GetFile always_creates no_limit (answering report) "/v1/files/7"
       "/tmp/out" world0).2
  = true
  /\ utils_os.Exists no_other_entry "/tmp/out/report.csv" world0 = false.
Proof.
  split.
  - apply (X12_downloaded_file_exists no_other_entry always_creates
             no_limit (answering report) "/v1/files/7" "/tmp/out" world0
             "/tmp/out/report.csv").
    reflexivity.
  - apply (X12_downloaded_file_exists no_other_entry always_creates
             no_limit (answering report) "/v1/files/7" "/tmp/out" world0
             "/tmp/out/report.csv").
    split; reflexivity.
Defined.

(** ** [NewWebService] *)

(** X13.  [NewWebService] returns a service exactly when the
    configuration loads and the key pair loads; the service then has the
    configured endpoint and a client whose transport presents that one
    key pair and does not verify the certificate of the server.  An
    error of the configuration is returned without regard to the key
    pair, and a service never comes with an error. *)
Theorem X13_NewWebService_result
    (ConcertoServerConfiguration :
       error + webservice_new.ServerConfiguration)
    (tls_LoadX509KeyPair :
       string -> string -> error + webservice_new.Certificate)
    (http_Client : webservice_new.TLSConfig -> Client) :
  let result :=
    webservice_new.NewWebService ConcertoServerConfiguration
      tls_LoadX509KeyPair http_Client in
  (forall service,
     result.1 = Some service
     <-> exists config cert,
           ConcertoServerConfiguration = inr config
           /\ tls_LoadX509KeyPair (webservice_new.CertificateCert config)
                (webservice_new.CertificateKey config) = inr cert
           /\ service
              = mkWebservice (webservice_new.server config)
                  (http_Client (webservice_new.mkTLSConfig [cert] true)))
  /\ (forall err, ConcertoServerConfiguration = inl err ->
                  result = (None, Some err))
  /\ (is_Some result.1 <-> result.2 = None).
Proof.
  intros result. subst result.
  unfold webservice_new.NewWebService, webservice_new.httpClient.
  destruct ConcertoServerConfiguration as [err|config].
  - cbn. split; [|split]; [|naive_solver|].
    + intros service. split; [done|]. by intros (config & cert & ? & _).
    + split; [by intros [? ?]|done].
  - destruct (tls_LoadX509KeyPair _ _) as [err|cert] eqn:Hload; cbn.
    + split; [|split]; [|done|].
      * intros service. split; [done|].
        intros (config' & cert & [= <-] & Hcert & _). congruence.
      * split; [by intros [? ?]|done].
    + split; [|split]; [|done|].
      * intros service. split.
        -- intros [= <-]. by exists config, cert.
        -- intros (config' & cert' & [= <-] & Hcert & ->). congruence.
      * split; [done|by eexists].
Qed.

Lemma X13_witness :
  (webservice_new.NewWebService good_configuration loads_key_pair
     any_client).1
  = Some (mkWebservice (mkConfig "https://api.example")
            (any_client
               (webservice_new.mkTLSConfig
                  [webservice_new.X509KeyPair "/etc/concerto/cert.crt"
                     "/etc/concerto/private.key"] true))).
Proof.
  apply (proj1 (X13_NewWebService_result good_configuration loads_key_pair
                  any_client)).
  eexists _, _. repeat split; reflexivity.
Defined.

(** ** The delete commands *)

Section DeleteCommands.
Context (Context : Type) (c_String : Context -> string -> string)
  (FlagsRequired : Context -> list string -> M unit)
  (ConcertoServerConfiguration : error + webservice_new.ServerConfiguration)
  (tls_LoadX509KeyPair :
     string -> string -> error + webservice_new.Certificate)
  (http_Client : webservice_new.TLSConfig -> Client)
  (Delete : Webservice -> string -> M (option error * string * Z)).

Local Abbreviation cmdDelete :=
  (templates.cmdDelete Context c_String FlagsRequired
     ConcertoServerConfiguration tls_LoadX509KeyPair http_Client Delete).
Local Abbreviation cmdDeleteTemplateScript :=
  (templates.cmdDeleteTemplateScript Context c_String FlagsRequired
     ConcertoServerConfiguration tls_LoadX509KeyPair http_Client Delete).
Local Abbreviation NewWebService :=
  (webservice_new.NewWebService ConcertoServerConfiguration
     tls_LoadX509KeyPair http_Client).

Lemma CheckError_nil w : utils_os.CheckError None w = (Returns tt, w).
Proof. reflexivity. Qed.

Lemma CheckError_error err w :
  utils_os.CheckError (Some err) w
  = (Exits 1, logged w [Fatal (utils_os.error_text err)]).
Proof. reflexivity. Qed.

(** How a delete command ends, from the answers of what it calls. *)
Lemma delete_command_ends (flagNames : list string) (endpoint : string)
    (c : Context) (world world1 : World) :
  FlagsRequired c flagNames world = (Returns tt, world1) ->
  (FlagsRequired c flagNames ;;
   let (webservice, err) := NewWebService in
   utils_os.CheckError err ;;
   let! r := templates.call_Delete Delete webservice endpoint in
   let '(err, mesg, res) := r in
   utils_os.CheckError err ;;
   CheckReturnCode res mesg) world
  = match NewWebService with
    | (_, Some err) =>
        (Exits 1, logged world1 [Fatal (utils_os.error_text err)])
    | (None, None) => (Panics NilPointerDereference, world1)
    | (Some service, None) =>
        match Delete service endpoint world1 with
        | (Returns (Some err, _, _), world2) =>
            (Exits 1, logged world2 [Fatal (utils_os.error_text err)])
        | (Returns (None, mesg, res), world2) =>
            CheckReturnCode res mesg world2
        | (Panics p, world2) => (Panics p, world2)
        | (Exits code, world2) => (Exits code, world2)
        | (OutsideModel, world2) => (OutsideModel, world2)
        end
    end.
Proof.
  intros Hflags. unfold bind at 1. rewrite Hflags.
  destruct NewWebService as [[service|] [err|]]; try reflexivity.
  unfold bind. rewrite CheckError_nil. cbn [templates.call_Delete].
  destruct (Delete service endpoint world1) as [[[[[err|] mesg] res]| | |] world2];
    reflexivity.
Qed.

(** X14.  In [cmdDelete] an error comes before the status.  When the
    service cannot be built the command logs that error and exits
    without sending a request; when the request itself fails it logs
    the error of the request and exits, and the body is not classified,
    whatever status came with it. *)
Theorem X14_cmdDelete_errors_come_first
    (c : Context) (world world1 : World) :
  FlagsRequired c ["id"] world = (Returns tt, world1) ->
  (forall err,
     NewWebService.2 = Some err ->
     cmdDelete c world
     = (Exits 1, logged world1 [Fatal (utils_os.error_text err)]))
  /\ (forall service err mesg res world2,
        NewWebService = (Some service, None) ->
        Delete service
          (Sprintf "/v1/blueprint/templates/%s" [c_String c "id"]) world1
        = (Returns (Some err, mesg, res), world2) ->
        cmdDelete c world
        = (Exits 1, logged world2 [Fatal (utils_os.error_text err)])).
Proof.
  intros Hflags. unfold templates.cmdDelete.
  rewrite (delete_command_ends _ _ _ _ _ Hflags). split.
  - intros err H. destruct NewWebService as [[service|] [err'|]];
      cbn in H; try done; by injection H as ->.
  - intros service err mesg res world2 -> HDelete. by rewrite HDelete.
Qed.

(** X15.  In [cmdDelete], once the service is built and the request is
    answered without error, the status decides: below 300 the command
    returns and logs nothing; from 300 on it exits after the fatal report
    of the message classified from the body. *)
Theorem X15_cmdDelete_status_decides
    (c : Context) (world world1 world2 : World)
    (service : Webservice) (mesg : string) (res : Z) :
  FlagsRequired c ["id"] world = (Returns tt, world1) ->
  NewWebService = (Some service, None) ->
  Delete service (Sprintf "/v1/blueprint/templates/%s" [c_String c "id"])
    world1
  = (Returns (None, mesg, res), world2) ->
  ((res < 300)%Z -> cmdDelete c world = (Returns tt, world2))
  /\ ((300 <= res)%Z ->
      cmdDelete c world
      = (Exits 1, logged world2 (failure_entries mesg (first_match mesg)))).
Proof.
  intros Hflags Hnew HDelete. unfold templates.cmdDelete.
  rewrite (delete_command_ends _ _ _ _ _ Hflags), Hnew, HDelete. split.
  - apply CheckReturnCode_passed.
  - apply CheckReturnCode_failed.
Qed.

(** X16.  [cmdDeleteTemplateScript] asks for the script of the template
    (the path holds the template and then the script) and ends as
    [cmdDelete] does: on the error of the request it exits with that
    error, else below 300 it returns, else it exits after the fatal
    report of the classified message. *)
Theorem X16_cmdDeleteTemplateScript_ends
    (c : Context) (world world1 world2 : World)
    (service : Webservice) (err : option error) (mesg : string) (res : Z) :
  FlagsRequired c ["id"; "template_id"] world = (Returns tt, world1) ->
  NewWebService = (Some service, None) ->
  Delete service
    ("/v1/blueprint/templates/" +:+ c_String c "template_id" +:+ "/scripts/"
     +:+ c_String c "id")
    world1
  = (Returns (err, mesg, res), world2) ->
  cmdDeleteTemplateScript c world
  = match err with
    | Some e => (Exits 1, logged world2 [Fatal (utils_os.error_text e)])
    | None =>
        if (300 <=? res)%Z
        then (Exits 1,
              logged world2 (failure_entries mesg (first_match mesg)))
        else (Returns tt, world2)
    end.
Proof.
  intros Hflags Hnew HDelete.
  unfold templates.cmdDeleteTemplateScript.
  rewrite (delete_command_ends _ _ _ _ _ Hflags), Hnew.
  assert (Sprintf "/v1/blueprint/templates/%s/scripts/%s"
            [c_String c "template_id"; c_String c "id"]
          = "/v1/blueprint/templates/" +:+ c_String c "template_id"
            +:+ "/scripts/" +:+ c_String c "id") as ->.
  { cbn. by rewrite app_empty_r. }
  rewrite HDelete. destruct err; [done|].
  destruct (Z.leb_spec 300 res).
  - by apply CheckReturnCode_failed.
  - by apply CheckReturnCode_passed.
Qed.

End DeleteCommands.

Lemma X14_witness :
  templates.cmdDelete flags flag_lookup flags_present no_configuration
    loads_key_pair any_client
    (delete_answers None EmptyString 204%Z) id_7 world0
  = (Exits 1, logged world0 [Fatal "configuration not found"])
  /\ templates.cmdDelete flags flag_lookup flags_present good_configuration
       loads_key_pair any_client
       (delete_answers (Some (errorString "connection reset"))
          not_found_page 404%Z)
       id_7 world0
     = (Exits 1, logged world0 [Fatal "connection reset"]).
Proof.
  split.
  - apply (proj1 (X14_cmdDelete_errors_come_first flags flag_lookup
                    flags_present no_configuration loads_key_pair any_client
                    (delete_answers None EmptyString 204%Z) id_7 world0 world0
                    eq_refl)
             (errorString "configuration not found")).
    reflexivity.
  - eapply (proj2 (X14_cmdDelete_errors_come_first flags flag_lookup
                     flags_present good_configuration loads_key_pair
                     any_client
                     (delete_answers (Some (errorString "connection reset"))
                        not_found_page 404%Z)
                     id_7 world0 world0 eq_refl)
                _ (errorString "connection reset") not_found_page 404%Z
                world0);
      reflexivity.
Defined.

Lemma X15_witness :
  templates.cmdDelete flags flag_lookup flags_present good_configuration
    loads_key_pair any_client (delete_answers None EmptyString 204%Z) id_7
    world0
  = (Returns tt, world0)
  /\ templates.cmdDelete flags flag_lookup flags_present good_configuration
       loads_key_pair any_client (delete_answers None not_found_page 404%Z)
       id_7 world0
     = (Exits 1,
        logged world0
          [Debugf "Concerto API response: %s" [ArgString not_found_page];
           Fatal "HTTP request failed: [Not Found]"]).
Proof.
  split.
  - eapply (proj1 (X15_cmdDelete_status_decides flags flag_lookup
                     flags_present good_configuration loads_key_pair
                     any_client (delete_answers None EmptyString 204%Z) id_7
                     world0 world0 world0 _ EmptyString 204%Z
                     eq_refl eq_refl eq_refl)).
    lia.
  - eapply (proj2 (X15_cmdDelete_status_decides flags flag_lookup
                     flags_present good_configuration loads_key_pair
                     any_client (delete_answers None not_found_page 404%Z)
                     id_7 world0 world0 world0 _ not_found_page 404%Z
                     eq_refl eq_refl eq_refl)).
    lia.
Defined.

Lemma X16_witness :
  templates.cmdDeleteTemplateScript flags flag_lookup flags_present
    good_configuration loads_key_pair any_client
    (delete_answers None two_errors 422%Z) id_7 world0
  = (Exits 1,
     logged world0
       [Debugf "Concerto API response: %s" [ArgString two_errors];
        Fatal "HTTP request failed: [name is required]"]).
Proof.
  rewrite (X16_cmdDeleteTemplateScript_ends flags flag_lookup flags_present
             good_configuration loads_key_pair any_client
             (delete_answers None two_errors 422%Z) id_7 world0 world0 world0
             _ None two_errors 422%Z eq_refl eq_refl eq_refl).
  reflexivity.
Defined.

(** ** [Get] *)

(** X17.  [Get] returns the whole body or an error, never part of a
    body: when the stream of the response breaks, the bytes that arrived
    are dropped and only the error is returned; when it ends well the
    body is returned, whatever the status.  Either way only the
    connection and the status are logged and the body is closed. *)
Theorem X17_Get_body_or_error
    (w : Webservice) (endpoint : string) (world : World)
    (response : Response) :
  client_Get (client w) (ApiEndpoint (config w) +:+ endpoint)
  = inr response ->
  Get w endpoint world
  = (Returns (match failure (ResponseBody response) with
              | Some err => (None, Some err)
              | None => (Some (content (ResponseBody response)), None)
              end),
     logged world
       [Debugf "Connecting: %s%s"
          [ArgString (ApiEndpoint (config w)); ArgString endpoint];
        Debugf "Status code: %s" [ArgString (Status response)]]).
Proof.
  intros Hget. run_monad. rewrite Hget. cbn.
  destruct (failure (ResponseBody response)); close_handles;
    unfold logged; cbn; by rewrite <- app_assoc.
Qed.

Lemma X17_witness :
  (Get (answering broken) "/v1/files/7" world0).1
  = Returns (None, Some (errorString "unexpected EOF")).
Proof.
  rewrite (X17_Get_body_or_error (answering broken) "/v1/files/7" world0
             broken eq_refl).
  reflexivity.
Defined.
